(** * patch-picasso: the pull-request comment bot, embedded and verified

    The repository holds two entry points, [src/index.ts] and a sibling of it
    that additionally uploads the generated picture to the head branch of
    the pull request, and a helper file [src/imageStorage.ts] that uploads a
    picture to a dedicated branch.  Each of them is a
    straight-line asynchronous program: it resolves its context, talks to the
    GitHub REST API and to the two OpenAI services, and ends by returning,
    by throwing or by [process.exit].

    The embedding keeps that shape.  A program is a tree of external calls
    ([prog]); every [await] is a node whose children are indexed by the
    answer of the outside world.  [run] executes such a tree against an
    arbitrary stateful environment and records the calls that were made and
    the answers they got.  Everything that is decided inside the TypeScript
    sources (string building, guards, try/catch, the order of the calls) is
    a Rocq definition; everything decided outside them (HTTP answers, the
    text and image services, the clock, [JSON.parse], the rendering of
    numbers) is supplied by the environment.

    A JavaScript string is modelled by a [string]; one character of the model
    stands for one UTF-16 code unit of the JavaScript string, so [length],
    [slice] and [includes] count and compare code units as the platform
    does.  The model has the 256 code units below U+0100. *)

From Stdlib Require Import String Ascii List Bool Arith NArith ZArith Lia.
From Stdlib Require Import DecimalString Sorted.
Import ListNotations.
Local Open Scope list_scope.
Local Open Scope string_scope.

Set Implicit Arguments.
Set Warnings "-register-all".

(* ================================================================== *)
(** * JavaScript strings *)
(* ================================================================== *)

Module Js.

(** [s.slice(0, n)] and [s.substring(0, n)] for a literal [n >= 0]: the
    first [n] code units of [s], or all of [s] when it is shorter. *)
Fixpoint slice0 (n : nat) (s : string) : string :=
  match s with
  | EmptyString => EmptyString
  | String c s' =>
      match n with
      | O => EmptyString
      | S n' => String c (slice0 n' s')
      end
  end.

(** [s.includes(pat)]: [pat] occurs in [s] at some position. *)
Fixpoint includes (s pat : string) : bool :=
  String.prefix pat s ||
  match s with
  | EmptyString => false
  | String _ s' => includes s' pat
  end.

(** [s.split(sep)] for a one-character separator.  The result is never
    empty: a string without separator splits into itself. *)
Fixpoint split (sep : ascii) (s : string) : list string :=
  match s with
  | EmptyString => [EmptyString]
  | String c s' =>
      if Ascii.eqb c sep then EmptyString :: split sep s'
      else
        match split sep s' with
        | piece :: pieces => String c piece :: pieces
        | [] => [String c EmptyString]
        end
  end.

(** [arr.join(sep)] on an array of strings. *)
Definition join (sep : string) (parts : list string) : string :=
  String.concat sep parts.

(** Array destructuring [const [a, b] = arr]: a missing position is
    [undefined]. *)
Definition at_index (arr : list string) (i : nat) : option string :=
  nth_error arr i.

(** Truthiness of a [string | undefined]: [undefined] and the empty string
    are falsy. *)
Definition truthy (v : option string) : bool :=
  match v with
  | Some EmptyString => false
  | Some _ => true
  | None => false
  end.

(** A template literal renders [undefined] by its name. *)
Definition show (v : option string) : string :=
  match v with
  | Some s => s
  | None => "undefined"
  end.

(** [a || b] on [string | undefined] operands. *)
Definition or_else (a b : option string) : option string :=
  if truthy a then a else b.


(** ** [encodeURIComponent] *)

Definition between (lo hi n : nat) : bool :=
  Nat.leb lo n && Nat.leb n hi.

Definition mark_chars : list ascii :=
  list_ascii_of_string "-_.!~*'()".

(** The characters that [encodeURIComponent] leaves alone: ASCII letters,
    digits and the marks [- _ . ! ~ * ' ( )]. *)
Definition unreserved (c : ascii) : bool :=
  let n := nat_of_ascii c in
  between 65 90 n || between 97 122 n || between 48 57 n ||
  existsb (Ascii.eqb c) mark_chars.

Definition hex_digit (n : nat) : ascii :=
  nth n (list_ascii_of_string "0123456789ABCDEF") "0"%char.

Definition percent (byte : nat) : string :=
  String "%"%char
    (String (hex_digit (byte / 16))
       (String (hex_digit (byte mod 16)) EmptyString)).

(** One code unit, escaped through its UTF-8 encoding: one byte below
    128, two bytes from 128 to 255. *)
Definition encode_unit (c : ascii) : string :=
  let n := nat_of_ascii c in
  if unreserved c then String c EmptyString
  else if Nat.ltb n 128 then percent n
  else (percent (192 + n / 64) ++ percent (128 + n mod 64))%string.

Fixpoint encodeURIComponent (s : string) : string :=
  match s with
  | EmptyString => EmptyString
  | String c s' => (encode_unit c ++ encodeURIComponent s')%string
  end.

End Js.

(* ================================================================== *)
(** * JavaScript values that come out of [JSON.parse] *)
(* ================================================================== *)

(** What the platform decides about numbers and about JSON syntax.  The
    sources only test numbers for truthiness and print them, and only call
    [JSON.parse]; none of the three is code of the repository. *)
Class JsNumber : Type := {
  number : Type;
  (** [Boolean(n)]: false for zero and NaN. *)
  number_truthy : number -> bool;
  (** [String(n)]. *)
  number_toString : number -> string
}.

Section Json.
Context {JN : JsNumber}.

Inductive json : Type :=
| JNull
| JBool (b : bool)
| JNum (n : number)
| JStr (s : string)
| JArr (items : list json)
| JObj (fields : list (string * json)).

(** A value as a variable holds it: [None] is [undefined]. *)
Definition jsval : Type := option json.

(** [Boolean(v)]. *)
Definition truthy (v : jsval) : bool :=
  match v with
  | None => false
  | Some JNull => false
  | Some (JBool b) => b
  | Some (JNum n) => number_truthy n
  | Some (JStr s) => negb (String.eqb s "")
  | Some (JArr _) => true
  | Some (JObj _) => true
  end.

(** Own property of an object literal, by key. *)
Fixpoint own_field (fields : list (string * json)) (key : string)
  : option json :=
  match fields with
  | [] => None
  | (k, v) :: rest => if String.eqb k key then Some v else own_field rest key
  end.

(** [v.key] for the keys the sources read ([imagePrompt], [caption],
    [pull_request], [number]): none of them is defined on a prototype, so
    the read yields the own property of an object and [undefined] on every
    other value, except that reading from [null] throws a [TypeError]
    (outer [None]). *)
Definition get (v : json) (key : string) : option jsval :=
  match v with
  | JNull => None
  | JObj fields => Some (own_field fields key)
  | _ => Some None
  end.

(** [String(v)] for a value that came out of [JSON.parse].  An array is
    joined with commas, [null] entries printing as nothing.  An object
    prints as [[object Object]] unless it has an own property [toString]:
    that property is not callable, conversion falls back on [valueOf],
    which returns the object itself, and a [TypeError] is thrown
    ([None]). *)
Fixpoint toString (v : json) : option string :=
  match v with
  | JNull => Some "null"
  | JBool true => Some "true"
  | JBool false => Some "false"
  | JNum n => Some (number_toString n)
  | JStr s => Some s
  | JArr items =>
      let element (item : json) : option string :=
        match item with
        | JNull => Some ""
        | _ => toString item
        end in
      (fix render (l : list json) : option string :=
         match l with
         | [] => Some ""
         | [x] => element x
         | x :: rest =>
             match element x, render rest with
             | Some a, Some b => Some (a ++ "," ++ b)%string
             | _, _ => None
             end
         end) items
  | JObj fields =>
      match own_field fields "toString" with
      | Some _ => None
      | None => Some "[object Object]"
      end
  end.

End Json.

(** [JSON.parse], [None] for a [SyntaxError]. *)
Class JsonParser {JN : JsNumber} : Type :=
  JSON_parse : string -> option json.

(* ================================================================== *)
(** * The outside world: data shapes, calls and answers *)
(* ================================================================== *)

(** The fields of the GitHub and OpenAI answers that the sources read.  A
    field reached through [?.], tested for truthiness or compared with
    [typeof] is optional, and [None] stands for [undefined].  A [null] there
    behaves like [undefined] under [?.], under a truthiness test and under
    [typeof ... === 'string'], and is modelled by [None] as well; the two
    differ only in how a template literal prints them, which shows in the
    prompt of the text service alone. *)

Record PullRequest : Type := {
  title : string;
  body : option string;
  user_login : option string;           (* pr.user?.login *)
  base_ref : option string;             (* pr.base?.ref *)
  head_ref : option string;             (* pr.head?.ref *)
  head_repo_full_name : option string;  (* pr?.head?.repo?.full_name *)
  base_repo_full_name : option string   (* pr?.base?.repo?.full_name *)
}.

Record ChangedFile : Type := {
  status : string;
  filename : string
}.

(** A comment; [None] when [typeof c.body] is not ['string']. *)
Record Comment : Type := {
  comment_body : option string
}.

Record ImageDatum : Type := {
  url : option string;
  b64_json : option string
}.

Record ImageResponse : Type := {
  data : option (list ImageDatum)
}.

(** The answer of the contents API to a write, [res?.content?.download_url]. *)
Record Written : Type := {
  content_download_url : option string
}.

Record RepoInfo : Type := {
  default_branch : string
}.

Record BranchInfo : Type := {
  commit_sha : string
}.

Record ContentInfo : Type := {
  sha : option string
}.

(** What the caller of [res.json()] expects to find; the TypeScript sources
    say so by a type argument or by the fields they go on to read. *)
Inductive Shape : Type :=
| SPull | SFiles | SComments | SWritten | SRepo | SBranch | SContent
| SIgnored.

Definition payload (sh : Shape) : Type :=
  match sh with
  | SPull => PullRequest
  | SFiles => list ChangedFile
  | SComments => list Comment
  | SWritten => Written
  | SRepo => RepoInfo
  | SBranch => BranchInfo
  | SContent => ContentInfo
  | SIgnored => unit
  end.

(** JSON bodies the sources send. *)
Inductive Body : Type :=
| BComment (text : string)
| BContents (message content branch : string) (sha : option string)
| BRef (ref sha : string).

(** How a [fetch] followed by [res.ok], [res.text()] or [res.json()] can
    end. *)
Inductive fetched (A : Type) : Type :=
| ResOk (parsed : A)
| ResBad (status : N) (statusText text : string)
| ResRejected (message : string).
Arguments ResBad {A} _ _ _.
Arguments ResRejected {A} _.

(** How any other promise can end. *)
Inductive settled (A : Type) : Type :=
| Resolved (result : A)
| Rejected (message : string).
Arguments Rejected {A} _.

Inductive Stream : Type := Log | Warn | Error.

(** An argument of a console call: a string, or an [Error] object. *)
Inductive LogArg : Type :=
| Text (s : string)
| ErrorObject (message : string).

Section Effects.
Context {JN : JsNumber}.

Inductive Req : Type :=
| HttpGet (sh : Shape) (url token : string)
| HttpPost (sh : Shape) (url token : string) (body : Body)
| HttpPut (sh : Shape) (url token : string) (body : Body)
| GenerateText (model system prompt : string) (maxTokens : nat)
| ImagesGenerate (apiKey model prompt size : string)
| DateNow
| ReadFile (path : string)
| Console (stream : Stream) (args : list LogArg).

Definition RespOf (r : Req) : Type :=
  match r with
  | HttpGet sh _ _ => fetched (payload sh)
  | HttpPost sh _ _ _ => fetched (payload sh)
  | HttpPut sh _ _ _ => fetched (payload sh)
  | GenerateText _ _ _ _ => settled string
  | ImagesGenerate _ _ _ _ => settled ImageResponse
  | DateNow => number
  | ReadFile _ => settled string
  | Console _ _ => unit
  end.

(** ** Programs *)

(** A program either is done (it returned, threw an [Error] with a
    message, or called [process.exit]) or makes a call and goes on with
    the answer. *)
Inductive prog (A : Type) : Type :=
| Ret (a : A)
| Throw (message : string)
| Exit (code : Z)
| Call (r : Req) (k : RespOf r -> prog A).
Arguments Throw {A} _.
Arguments Exit {A} _.

Fixpoint bind {A B : Type} (p : prog A) (f : A -> prog B) : prog B :=
  match p with
  | Ret a => f a
  | Throw m => Throw m
  | Exit c => Exit c
  | Call r k => Call r (fun x => bind (k x) f)
  end.

(** [try { p } catch (e) { handler(e.message) }]; [process.exit] is not
    caught. *)
Fixpoint try_catch {A : Type} (p : prog A) (handler : string -> prog A)
  : prog A :=
  match p with
  | Ret a => Ret a
  | Throw m => handler m
  | Exit c => Exit c
  | Call r k => Call r (fun x => try_catch (k x) handler)
  end.

Definition call (r : Req) : prog (RespOf r) := Call r (fun x => Ret x).

(** [await promise] for a promise that is not a [fetch]. *)
Definition await {A : Type} (r : Req) (unwrap : RespOf r -> settled A)
  : prog A :=
  Call r (fun x =>
    match unwrap x with
    | Resolved a => Ret a
    | Rejected m => Throw m
    end).

(** ** Runs *)

(** One call with its answer. *)
Inductive Event : Type :=
| Ev (r : Req) (x : RespOf r).

Inductive outcome (A : Type) : Type :=
| Returned (a : A)
| Threw (message : string)
| Exited (code : Z).
Arguments Threw {A} _.
Arguments Exited {A} _.

(** The outside world: any state, and for every call an answer and a next
    state. *)
Record World : Type := {
  state : Type;
  answer : forall r : Req, state -> RespOf r * state
}.

Fixpoint run {A : Type} (W : World) (p : prog A) (s : state W)
  : list Event * outcome A * state W :=
  match p with
  | Ret a => ([], Returned a, s)
  | Throw m => ([], Threw m, s)
  | Exit c => ([], Exited c, s)
  | Call r k =>
      let (x, s1) := answer W r s in
      let '(events, out, s2) := run W (k x) s1 in
      (Ev r x :: events, out, s2)
  end.

Definition events_of {A S : Type} (result : list Event * outcome A * S)
  : list Event := fst (fst result).

Definition outcome_of {A S : Type} (result : list Event * outcome A * S)
  : outcome A := snd (fst result).

Definition state_after {A S : Type} (result : list Event * outcome A * S)
  : S := snd result.

(** The exit code of the process when the top-level promise ends this
    way.  An uncaught rejection of the entry points cannot happen: both
    attach a [catch] that exits with 1. *)
Definition exit_code {A : Type} (o : outcome A) : Z :=
  match o with
  | Returned _ => 0%Z
  | Threw _ => 1%Z
  | Exited c => c
  end.

End Effects.

Arguments Throw {JN A} message.
Arguments Exit {JN A} code.
Arguments Threw {A} message.
Arguments Exited {A} code.

Declare Scope prog_scope.
Delimit Scope prog_scope with prog.
Notation "x <- p ;; q" := (bind p (fun x => q))
  (at level 61, p at next level, right associativity) : prog_scope.
Notation "p ;; q" := (bind p (fun _ => q))
  (at level 61, right associativity) : prog_scope.
Notation "' pat <- p ;; q" := (bind p (fun x => let 'pat := x in q))
  (at level 61, pat pattern, p at next level, right associativity)
  : prog_scope.
Local Open Scope prog_scope.

(** The line feed, written ['\n'] in the sources. *)
Definition LF : string := String (ascii_of_nat 10) EmptyString.

(** An HTTP status code in a template literal. *)
Definition show_status (n : N) : string :=
  NilZero.string_of_uint (N.to_uint n).

(** What [minimist] hands over for the flags the entry points read. *)
Record Args {JN : JsNumber} : Type := {
  arg_repo : option string;   (* args.repo *)
  arg_pr : jsval;             (* args.pr *)
  arg_pr_number : jsval       (* args['pr-number'] *)
}.

Record RepoId : Type := {
  owner : string;
  name : string
}.

(* ================================================================== *)
(** * What the two entry points have in common *)
(* ================================================================== *)

(** Lines 1 to 70 of both entry points, and the first part of their [main]
    up to the call of the image service, are the same text. *)

Module Common.
Section WithRuntime.
Context {JN : JsNumber} {JP : JsonParser}.

(** [process.env]. *)
Variable env : string -> option string.

Definition MARKER : string := "<!-- patch-picasso -->".

(** [x] narrowed by a guard [if (!x) ...]: a non-empty string. *)
Definition definite (v : option string) : option string :=
  if Js.truthy v then v else None.

(** [err?.message || err] as a console argument. *)
Definition message_or_error (message : string) : LogArg :=
  if Js.truthy (Some message) then Text message else ErrorObject message.

Definition getEnv (name : string) (required : bool)
  : prog (option string) :=
  let value := env name in
  if negb (Js.truthy value) && required then
    call (Console Error
            [Text ("[patch-picasso] Missing required env: " ++ name)]) ;;
    Exit 1%Z
  else Ret value.

Definition parseRepo (repo : string) : prog RepoId :=
  let parts := Js.split "/" repo in
  let owner := Js.at_index parts 0 in
  let name := Js.at_index parts 1 in
  match definite owner, definite name with
  | Some owner, Some name => Ret {| owner := owner; name := name |}
  | _, _ => Throw ("Invalid repo string: " ++ repo)
  end.

Definition getEventPayload : prog jsval :=
  try_catch
    (match definite (env "GITHUB_EVENT_PATH") with
     | None => Ret None
     | Some eventPath =>
         content <- await (ReadFile eventPath) (fun x => x) ;;
         match JSON_parse content with
         | Some payload => Ret (Some payload)
         | None => Throw "Unexpected token in JSON"
         end
     end)
    (fun _ => Ret None).

Definition fetchJson (sh : Shape) (url token : string)
  : prog (payload sh) :=
  res <- call (HttpGet sh url token) ;;
  match res with
  | ResOk parsed => Ret parsed
  | ResBad status statusText text =>
      Throw ("GitHub API " ++ url ++ " failed: " ++ show_status status
             ++ " " ++ statusText ++ " - " ++ text)
  | ResRejected m => Throw m
  end.

Definition postJson (sh : Shape) (url token : string) (body : Body)
  : prog (payload sh) :=
  res <- call (HttpPost sh url token body) ;;
  match res with
  | ResOk parsed => Ret parsed
  | ResBad status statusText text =>
      Throw ("GitHub API POST " ++ url ++ " failed: " ++ show_status status
             ++ " " ++ statusText ++ " - " ++ text)
  | ResRejected m => Throw m
  end.

(** [obj.key] on a value of type [any]. *)
Definition read (obj : jsval) (key : string) : prog jsval :=
  match obj with
  | None => Throw "Cannot read properties of undefined"
  | Some v =>
      match get v key with
      | Some field => Ret field
      | None => Throw "Cannot read properties of null"
      end
  end.

(** [`${v}`] and [String(v)]. *)
Definition render (v : jsval) : prog string :=
  match v with
  | None => Ret "undefined"
  | Some j =>
      match toString j with
      | Some s => Ret s
      | None => Throw "Cannot convert object to primitive value"
      end
  end.

(** [a || b] on values. *)
Definition or_value (a b : jsval) : jsval :=
  if truthy a then a else b.

(** What [main] knows once its context is resolved. *)
Record RunContext : Type := {
  githubToken : string;
  openaiKey : string;
  repoId : RepoId;
  prNumber : string;   (* the pull request number as template literals print it *)
  apiBase : string
}.

(** [main], from its first line to the computation of [apiBase].  [None]
    is the early [return] after [getEnv]. *)
Definition resolveContext (args : Args) : prog (option RunContext) :=
  githubToken <- getEnv "GITHUB_TOKEN" true ;;
  openaiKey <- getEnv "OPENAI_API_KEY" true ;;
  match definite githubToken, definite openaiKey with
  | Some githubToken, Some openaiKey =>
      event <- getEventPayload ;;
      match definite (Js.or_else (arg_repo args) (env "GITHUB_REPOSITORY"))
      with
      | None =>
          call (Console Error
                  [Text "[patch-picasso] Missing repo. Pass --repo owner/repo or set GITHUB_REPOSITORY."]) ;;
          Exit 1%Z
      | Some repoArg =>
          id <- parseRepo repoArg ;;
          let fromFlags := or_value (arg_pr args) (arg_pr_number args) in
          prNumber <-
            (if negb (truthy fromFlags) && truthy event then
               pull_request <- read event "pull_request" ;;
               if truthy pull_request then
                 number <- read pull_request "number" ;;
                 if truthy number then Ret number else Ret fromFlags
               else Ret fromFlags
             else Ret fromFlags) ;;
          if negb (truthy prNumber) then
            call (Console Error
                    [Text "[patch-picasso] Missing PR number. Pass --pr or ensure this runs on a pull_request event."]) ;;
            Exit 1%Z
          else
            let apiBase :=
              "https://api.github.com/repos/" ++ owner id ++ "/" ++ name id in
            printed <- render prNumber ;;
            Ret (Some {| githubToken := githubToken;
                         openaiKey := openaiKey;
                         repoId := id;
                         prNumber := printed;
                         apiBase := apiBase |})
      end
  | _, _ => Ret None
  end.

(** [(comments as any[]).find(c => typeof c.body === 'string' &&
    c.body.includes(MARKER))]. *)
Definition has_marker (c : Comment) : bool :=
  match comment_body c with
  | Some text => Js.includes text MARKER
  | None => false
  end.

Definition existing (comments : list Comment) : option Comment :=
  find has_marker comments.

Definition changedFiles (files : list ChangedFile) : list string :=
  firstn 30 (map (fun f => status f ++ ": " ++ filename f)%string files).

Definition prSummary (pr : PullRequest) (files : list ChangedFile)
  : string :=
  Js.join LF
    (app
     ["Title: " ++ title pr;
      match definite (body pr) with
      | Some text => "Body: " ++ Js.slice0 2000 text
      | None => "Body: (none)"
      end;
      "Author: " ++ Js.show (user_login pr);
      "Base: " ++ Js.show (base_ref pr);
      "Head: " ++ Js.show (head_ref pr);
      "Files:"]
     (changedFiles files)).

Definition promptSystem : string :=
  Js.join LF
    ["You are a witty prompt engineer who writes funny, vivid scene descriptions for an image generation model.";
     "Constraints:";
     "- Keep the image prompt under 120 words.";
     "- Keep the style playful and safe-for-work.";
     "- Avoid logos, trademarks, and real person likenesses.";
     "- Prefer cartoony styles. Include specific visual details relevant to the PR." ++ LF]%string.

Definition promptUser (summary : string) : string :=
  Js.join LF
    ["Create:";
     "1) An IMAGE PROMPT: a funny scene inspired by this PR.";
     "2) A CAPTION: one short witty line for the comment.";
     "";
     "PR DETAILS:" ++ LF ++ summary;
     "";
     "Output JSON with keys imagePrompt and caption."]%string.

Definition DEFAULT_CAPTION : string := "A lighthearted take on this PR".

(** [String(parsed.key || '').slice(0, n)]. *)
Definition field_text (parsed : json) (key : string) (n : nat)
  : prog string :=
  field <- read (Some parsed) key ;;
  text <- render (or_value field (Some (JStr ""))) ;;
  Ret (Js.slice0 n text).

(** The [try]/[catch] that turns the answer of the text service into
    [imagePrompt] and [caption]. *)
Definition parseStructured (structured : string) : prog (string * string) :=
  try_catch
    (match JSON_parse structured with
     | None => Throw "Unexpected token in JSON"
     | Some parsed =>
         imagePrompt <- field_text parsed "imagePrompt" 800 ;;
         caption <- field_text parsed "caption" 200 ;;
         Ret (imagePrompt, caption)
     end)
    (fun _ => Ret (Js.slice0 800 structured, DEFAULT_CAPTION)).

(** [image.data?.[0]]. *)
Definition first_datum (image : ImageResponse) : option ImageDatum :=
  match data image with
  | Some (d :: _) => Some d
  | _ => None
  end.

Definition first_url (image : ImageResponse) : option string :=
  match first_datum image with
  | Some d => url d
  | None => None
  end.

Definition first_b64 (image : ImageResponse) : option string :=
  match first_datum image with
  | Some d => b64_json d
  | None => None
  end.

(** What [main] holds when the image service has answered. *)
Record Generated : Type := {
  pr : PullRequest;
  caption : string;
  image : ImageResponse
}.

(** [main], from the first GitHub call to the answer of the image
    service.  [None] is the early [return] of the idempotency check. *)
Definition generate (ctx : RunContext) : prog (option Generated) :=
  pr <- fetchJson SPull
          (apiBase ctx ++ "/pulls/" ++ prNumber ctx) (githubToken ctx) ;;
  files <- fetchJson SFiles
             (apiBase ctx ++ "/pulls/" ++ prNumber ctx ++ "/files?per_page=100")
             (githubToken ctx) ;;
  comments <- fetchJson SComments
                (apiBase ctx ++ "/issues/" ++ prNumber ctx
                 ++ "/comments?per_page=100")
                (githubToken ctx) ;;
  match existing comments with
  | Some _ =>
      call (Console Log [Text "[patch-picasso] Comment already exists. Skipping."]) ;;
      Ret None
  | None =>
      structured <- await (GenerateText "gpt-4o-mini" promptSystem
                             (promptUser (prSummary pr files)) 400)
                      (fun x => x) ;;
      '(imagePrompt, caption) <- parseStructured structured ;;
      image <- await (ImagesGenerate (openaiKey ctx) "gpt-image-1"
                        imagePrompt "1024x1024")
                 (fun x => x) ;;
      Ret (Some {| pr := pr; caption := caption; image := image |})
  end.

Definition comments_url (ctx : RunContext) : string :=
  apiBase ctx ++ "/issues/" ++ prNumber ctx ++ "/comments".

Definition ATTRIBUTION : string :=
  "<sub>Generated by patch-picasso using Vercel AI SDK and OpenAI.</sub>".

(** [main().catch(err => { console.error(...); process.exit(1); })]. *)
Definition entry (main : prog unit) : prog unit :=
  try_catch main
    (fun message =>
       call (Console Error
               [Text "[patch-picasso] Failed:"; message_or_error message]) ;;
       Exit 1%Z).

End WithRuntime.
End Common.

(* ================================================================== *)
(** * [src/index.ts]: the picture is embedded in the comment *)
(* ================================================================== *)

Module Index.
Section WithRuntime.
Context {JN : JsNumber} {JP : JsonParser}.
Variable env : string -> option string.

(** The hosted URL of the answer, else a [data:] URL made of its base64
    payload, else an error. *)
Definition resolveImage (image : ImageResponse) : prog string :=
  let imageUrl := Common.first_url image in
  let imageUrl :=
    if negb (Js.truthy imageUrl) then
      let b64 := Common.first_b64 image in
      if Js.truthy b64 then Some ("data:image/png;base64," ++ Js.show b64)
      else imageUrl
    else imageUrl in
  if negb (Js.truthy imageUrl) then
    Throw "OpenAI did not return an image URL or data"
  else Ret (Js.show imageUrl).

Definition composeBody (caption imageUrl : string) : string :=
  Js.join LF
    [Common.MARKER;
     LF;
     if Js.truthy (Some caption) then "> " ++ caption ++ LF else "";
     "";
     "![Funny PR Image](" ++ imageUrl ++ ")";
     "";
     Common.ATTRIBUTION].

Definition main (args : Args) : prog unit :=
  ctx <- Common.resolveContext env args ;;
  match ctx with
  | None => Ret tt
  | Some ctx =>
      generated <- Common.generate ctx ;;
      match generated with
      | None => Ret tt
      | Some g =>
          imageUrl <- resolveImage (Common.image g) ;;
          let body := composeBody (Common.caption g) imageUrl in
          Common.postJson SIgnored (Common.comments_url ctx)
            (Common.githubToken ctx) (BComment body) ;;
          call (Console Log [Text "[patch-picasso] Comment posted."]) ;;
          Ret tt
      end
  end.

(** The process: [main] under its top-level [catch]. *)
Definition program (args : Args) : prog unit := Common.entry (main args).

End WithRuntime.
End Index.

(* ================================================================== *)
(** * The sibling entry point: the picture is uploaded to the head branch *)
(* ================================================================== *)

Module Upload.
Section WithRuntime.
Context {JN : JsNumber} {JP : JsonParser}.
Variable env : string -> option string.

Definition putJson (sh : Shape) (url token : string) (body : Body)
  : prog (payload sh) :=
  res <- call (HttpPut sh url token body) ;;
  match res with
  | ResOk parsed => Ret parsed
  | ResBad status statusText text =>
      Throw ("GitHub API PUT " ++ url ++ " failed: " ++ show_status status
             ++ " " ++ statusText ++ " - " ++ text)
  | ResRejected m => Throw m
  end.

(** [a === b] on [string | undefined] operands. *)
Definition strict_eq (a b : option string) : bool :=
  match a, b with
  | Some x, Some y => String.eqb x y
  | None, None => true
  | _, _ => false
  end.

(** The guard of the upload: a payload, both repository names, the same
    repository on both sides, a head branch. *)
Definition eligible (pr : PullRequest) (b64 : option string) : bool :=
  Js.truthy b64 && Js.truthy (head_repo_full_name pr)
  && Js.truthy (base_repo_full_name pr)
  && strict_eq (head_repo_full_name pr) (base_repo_full_name pr)
  && Js.truthy (head_ref pr).

Definition imgPath (ctx : Common.RunContext) (now : number) : string :=
  ".github/patch-picasso/" ++ Common.prNumber ctx ++ "-"
  ++ number_toString now ++ ".png".

Definition rawUrl (ctx : Common.RunContext) (headRef path : string) : string :=
  "https://raw.githubusercontent.com/" ++ owner (Common.repoId ctx) ++ "/"
  ++ name (Common.repoId ctx) ++ "/" ++ Js.encodeURIComponent headRef
  ++ "/" ++ path.

(** The [try] block of the fallback. *)
Definition upload (ctx : Common.RunContext) (b64 headRef : string)
  : prog (option string) :=
  now <- call DateNow ;;
  let path := imgPath ctx now in
  res <- putJson SWritten
           (Common.apiBase ctx ++ "/contents/" ++ Js.encodeURIComponent path)
           (Common.githubToken ctx)
           (BContents
              ("patch-picasso: add generated image for PR #"
               ++ Common.prNumber ctx)
              b64 headRef None) ;;
  let imageUrl :=
    Js.or_else (content_download_url res) (Some (rawUrl ctx headRef path)) in
  call (Console Log
          [Text "[patch-picasso] Uploaded image to repository at"; Text path]) ;;
  Ret imageUrl.

(** [imageUrl] as it stands when the comment is composed. *)
Definition resolveImage (ctx : Common.RunContext) (pr : PullRequest)
    (image : ImageResponse) : prog (option string) :=
  let imageUrl := Common.first_url image in
  if negb (Js.truthy imageUrl) then
    let b64 := Common.first_b64 image in
    if eligible pr b64 then
      try_catch
        (upload ctx (Js.show b64) (Js.show (head_ref pr)))
        (fun message =>
           call (Console Warn
                   [Text "[patch-picasso] Failed to upload image to repo:";
                    Common.message_or_error message]) ;;
           Ret imageUrl)
    else if negb (Js.truthy b64) then
      call (Console Warn
              [Text "[patch-picasso] OpenAI did not return URL or base64 image."]) ;;
      Ret imageUrl
    else
      call (Console Warn
              [Text "[patch-picasso] Skipping repo upload (fork or missing branch info)."]) ;;
      Ret imageUrl
  else Ret imageUrl.

Definition UNAVAILABLE : string := "(Generated image unavailable)".

Definition composeBody (caption : string) (imageUrl : option string)
  : string :=
  let caption := Js.slice0 500 caption in
  Js.join LF
    [Common.MARKER;
     LF;
     if Js.truthy (Some caption) then "> " ++ caption ++ LF else "";
     if Js.truthy imageUrl
     then LF ++ "![Funny PR Image](" ++ Js.show imageUrl ++ ")" ++ LF
     else LF ++ UNAVAILABLE ++ LF;
     Common.ATTRIBUTION].

Definition main (args : Args) : prog unit :=
  ctx <- Common.resolveContext env args ;;
  match ctx with
  | None => Ret tt
  | Some ctx =>
      generated <- Common.generate ctx ;;
      match generated with
      | None => Ret tt
      | Some g =>
          imageUrl <- resolveImage ctx (Common.pr g) (Common.image g) ;;
          let body := composeBody (Common.caption g) imageUrl in
          Common.postJson SIgnored (Common.comments_url ctx)
            (Common.githubToken ctx) (BComment body) ;;
          call (Console Log [Text "[patch-picasso] Comment posted."]) ;;
          Ret tt
      end
  end.

Definition program (args : Args) : prog unit := Common.entry (main args).

End WithRuntime.
End Upload.

(* ================================================================== *)
(** * [src/imageStorage.ts]: the picture is uploaded to a branch of its own *)
(* ================================================================== *)

Module ImageStorage.

Record UploadParams : Type := {
  owner : string;
  repo : string;
  token : string;
  branchName : option string;
  pathInRepo : string;
  commitMessage : string;
  contentBase64 : string
}.

Section WithRuntime.
Context {JN : JsNumber}.
Variable env : string -> option string.

Definition failure (verb url : string) (status : N)
    (statusText text : string) : string :=
  verb ++ " " ++ url ++ " failed: " ++ show_status status ++ " "
  ++ statusText ++ " - " ++ text.

Definition getJson (sh : Shape) (url token : string) : prog (payload sh) :=
  res <- call (HttpGet sh url token) ;;
  match res with
  | ResOk parsed => Ret parsed
  | ResBad status statusText text =>
      Throw (failure "GET" url status statusText text)
  | ResRejected m => Throw m
  end.

Definition postJson (sh : Shape) (url token : string) (body : Body)
  : prog (payload sh) :=
  res <- call (HttpPost sh url token body) ;;
  match res with
  | ResOk parsed => Ret parsed
  | ResBad status statusText text =>
      Throw (failure "POST" url status statusText text)
  | ResRejected m => Throw m
  end.

Definition putJson (sh : Shape) (url token : string) (body : Body)
  : prog (payload sh) :=
  res <- call (HttpPut sh url token body) ;;
  match res with
  | ResOk parsed => Ret parsed
  | ResBad status statusText text =>
      Throw (failure "PUT" url status statusText text)
  | ResRejected m => Throw m
  end.

Definition apiBase (owner repo : string) : string :=
  "https://api.github.com/repos/" ++ owner ++ "/" ++ repo.

Definition branch_url (owner repo branch : string) : string :=
  apiBase owner repo ++ "/branches/" ++ Js.encodeURIComponent branch.

Definition ensureImagesBranch (owner repo token branchName : string)
  : prog unit :=
  (* Check if branch exists *)
  found <- try_catch
             (getJson SIgnored (branch_url owner repo branchName) token ;;
              Ret true)
             (fun _ => Ret false) ;;
  if found then Ret tt
  else
    (* Get default branch name *)
    repoInfo <- getJson SRepo (apiBase owner repo) token ;;
    let defaultBranch := default_branch repoInfo in
    (* Get SHA of default branch head *)
    branchInfo <- getJson SBranch (branch_url owner repo defaultBranch) token ;;
    let headSha := commit_sha branchInfo in
    (* Create new branch ref *)
    postJson SIgnored (apiBase owner repo ++ "/git/refs") token
      (BRef ("refs/heads/" ++ branchName) headSha) ;;
    Ret tt.

Definition contents_url (owner repo path : string) : string :=
  apiBase owner repo ++ "/contents/" ++ Js.encodeURIComponent path.

Definition rawUrl (owner repo branch path : string) : string :=
  "https://raw.githubusercontent.com/" ++ owner ++ "/" ++ repo
  ++ "/refs/heads/" ++ Js.encodeURIComponent branch ++ "/" ++ path.

Definition uploadImageToImagesBranch (params : UploadParams)
  : prog string :=
  let branch :=
    Js.show
      (Js.or_else
         (Js.or_else (branchName params)
            (env "PATCH_PICASSO_IMAGE_BRANCH"))
         (Some "patch-picasso-images")) in
  ensureImagesBranch (owner params) (repo params) (token params) branch ;;
  (* Try to get existing file SHA (if any) *)
  existingSha <-
    try_catch
      (existing <- getJson SContent
                     (contents_url (owner params) (repo params)
                        (pathInRepo params)
                      ++ "?ref=" ++ Js.encodeURIComponent branch)
                     (token params) ;;
       Ret (sha existing))
      (fun _ => Ret None) ;;
  (* Create or update the file in the images branch *)
  putJson SWritten
    (contents_url (owner params) (repo params) (pathInRepo params))
    (token params)
    (BContents (commitMessage params) (contentBase64 params) branch
       existingSha) ;;
  (* Return raw URL to the file *)
  Ret (rawUrl (owner params) (repo params) branch (pathInRepo params)).

End WithRuntime.
End ImageStorage.

(* ================================================================== *)
(** * Reading a run *)
(* ================================================================== *)

Section Observations.
Context {JN : JsNumber}.

Definition request (e : Event) : Req :=
  match e with Ev r _ => r end.

(** The calls of a run, in order. *)
Definition calls (events : list Event) : list Req := map request events.

Definition is_image_generation (r : Req) : bool :=
  match r with ImagesGenerate _ _ _ _ => true | _ => false end.

(** A POST; the entry points post nothing but comments. *)
Definition is_post (r : Req) : bool :=
  match r with HttpPost _ _ _ _ => true | _ => false end.

(** A PUT: a write to the contents of the repository. *)
Definition is_put (r : Req) : bool :=
  match r with HttpPut _ _ _ _ => true | _ => false end.

(** A call that leaves the machine: HTTP, text or image service. *)
Definition is_remote (r : Req) : bool :=
  match r with
  | HttpGet _ _ _ | HttpPost _ _ _ _ | HttpPut _ _ _ _
  | GenerateText _ _ _ _ | ImagesGenerate _ _ _ _ => true
  | DateNow | ReadFile _ | Console _ _ => false
  end.

(** The comment a call posts, if it posts one. *)
Definition posted_comment (r : Req) : option string :=
  match r with
  | HttpPost _ _ _ (BComment text) => Some text
  | _ => None
  end.

(** The comments a run posted, in order. *)
Definition posted (events : list Event) : list string :=
  flat_map
    (fun e =>
       match posted_comment (request e) with
       | Some text => [text]
       | None => []
       end)
    events.

(** The answer to the listing of the comments, if the event is one. *)
Definition fetched_comments (e : Event) : option (fetched (list Comment)) :=
  match e with
  | Ev r x =>
      match r return RespOf r -> option (fetched (list Comment)) with
      | HttpGet sh _ _ =>
          match sh return fetched (payload sh) -> option (fetched (list Comment)) with
          | SComments => fun x => Some x
          | _ => fun _ => None
          end
      | _ => fun _ => None
      end x
  end.

(** The answer to the read of the pull request. *)
Definition fetched_pull (e : Event) : option (fetched PullRequest) :=
  match e with
  | Ev r x =>
      match r return RespOf r -> option (fetched PullRequest) with
      | HttpGet sh _ _ =>
          match sh return fetched (payload sh) -> option (fetched PullRequest) with
          | SPull => fun x => Some x
          | _ => fun _ => None
          end
      | _ => fun _ => None
      end x
  end.

(** The answer of the text service. *)
Definition generated_text (e : Event) : option (settled string) :=
  match e with
  | Ev r x =>
      match r return RespOf r -> option (settled string) with
      | GenerateText _ _ _ _ => fun x => Some x
      | _ => fun _ => None
      end x
  end.

(** The answer of the image service. *)
Definition generated_image (e : Event) : option (settled ImageResponse) :=
  match e with
  | Ev r x =>
      match r return RespOf r -> option (settled ImageResponse) with
      | ImagesGenerate _ _ _ _ => fun x => Some x
      | _ => fun _ => None
      end x
  end.


(** The answer of the clock. *)
Definition clock (e : Event) : option number :=
  match e with
  | Ev r x =>
      match r return RespOf r -> option number with
      | DateNow => fun x => Some x
      | _ => fun _ => None
      end x
  end.

(** Whether a call got an answer that makes the wrappers throw. *)
Definition failed (e : Event) : bool :=
  match e with
  | Ev r x =>
      match r return RespOf r -> bool with
      | HttpGet _ _ _ | HttpPost _ _ _ _ | HttpPut _ _ _ _ =>
          fun x => match x with ResOk _ => false | _ => true end
      | GenerateText _ _ _ _ | ImagesGenerate _ _ _ _ | ReadFile _ =>
          fun x => match x with Resolved _ => false | _ => true end
      | DateNow | Console _ _ => fun _ => false
      end x
  end.

End Observations.

(* ================================================================== *)
(** * A concrete platform and a concrete GitHub, for examples *)
(* ================================================================== *)

Module Sample.

(** Integers, printed in decimal as JavaScript prints them. *)
Definition decimal : JsNumber := {|
  number := Z;
  number_truthy := fun z => negb (Z.eqb z 0);
  number_toString := fun z => NilZero.string_of_int (Z.to_int z)
|}.

(** The double quote. *)
Definition DQ : string := String (ascii_of_nat 34) EmptyString.

Definition quoted (s : string) : string := DQ ++ s ++ DQ.

(** The text [{"imagePrompt":"a cat coding","caption":"meow-ge requests"}]. *)
Definition WELL_FORMED : string :=
  "{" ++ quoted "imagePrompt" ++ ":" ++ quoted "a cat coding" ++ ","
  ++ quoted "caption" ++ ":" ++ quoted "meow-ge requests" ++ "}".

(** The text [{"pull_request":{"number":7}}]. *)
Definition EVENT : string :=
  "{" ++ quoted "pull_request" ++ ":{" ++ quoted "number" ++ ":7}}".

(** [JSON.parse] on the texts of the examples: two objects, [null], and
    prose, which is a syntax error. *)
Definition parser : @JsonParser decimal :=
  fun text =>
    if String.eqb text WELL_FORMED then
      Some (@JObj decimal
              [("imagePrompt", @JStr decimal "a cat coding");
               ("caption", @JStr decimal "meow-ge requests")])
    else if String.eqb text EVENT then
      Some (@JObj decimal
              [("pull_request",
                @JObj decimal [("number", @JNum decimal 7%Z)])])
    else if String.eqb text "null" then Some (@JNull decimal)
    else None.

(** What the services answer in an example. *)
Record Scenario : Type := {
  sc_pull : fetched PullRequest;
  sc_files : fetched (list ChangedFile);
  sc_text : settled string;
  sc_image : settled ImageResponse;
  sc_now : Z;
  sc_written : fetched Written;
  sc_branch : fetched unit;
  sc_repo : fetched RepoInfo;
  sc_head : fetched BranchInfo;
  sc_content : fetched ContentInfo;
  sc_file : settled string
}.

Definition unexpected {A : Type} : fetched A :=
  ResRejected "unexpected request".

(** A GitHub that remembers the comments of one pull request: a listing
    answers what has been posted so far, a post adds a comment. *)
Definition github (sc : Scenario) : @World decimal := {|
  state := list Comment;
  answer := fun r =>
    match r return list Comment -> @RespOf decimal r * list Comment with
    | HttpGet sh _ _ =>
        match sh return list Comment -> fetched (payload sh) * list Comment
        with
        | SPull => fun comments => (sc_pull sc, comments)
        | SFiles => fun comments => (sc_files sc, comments)
        | SComments => fun comments => (ResOk comments, comments)
        | SWritten => fun comments => (unexpected, comments)
        | SRepo => fun comments => (sc_repo sc, comments)
        | SBranch => fun comments => (sc_head sc, comments)
        | SContent => fun comments => (sc_content sc, comments)
        | SIgnored => fun comments => (sc_branch sc, comments)
        end
    | HttpPost sh _ _ body =>
        match sh return list Comment -> fetched (payload sh) * list Comment
        with
        | SIgnored => fun comments =>
            match body with
            | BComment text =>
                (ResOk tt,
                 (comments ++ [{| comment_body := Some text |}])%list)
            | _ => (ResOk tt, comments)
            end
        | _ => fun comments => (unexpected, comments)
        end
    | HttpPut sh _ _ _ =>
        match sh return list Comment -> fetched (payload sh) * list Comment
        with
        | SWritten => fun comments => (sc_written sc, comments)
        | _ => fun comments => (unexpected, comments)
        end
    | GenerateText _ _ _ _ => fun comments => (sc_text sc, comments)
    | ImagesGenerate _ _ _ _ => fun comments => (sc_image sc, comments)
    | DateNow => fun comments => (sc_now sc, comments)
    | ReadFile _ => fun comments => (sc_file sc, comments)
    | Console _ _ => fun comments => (tt, comments)
    end
|}.

(** A pull request from a branch of the same repository. *)
Definition same_repo_pull : PullRequest := {|
  title := "Fix the flaky test";
  body := Some "Retries the request once.";
  user_login := Some "octocat";
  base_ref := Some "main";
  head_ref := Some "fix/flaky";
  head_repo_full_name := Some "acme/widgets";
  base_repo_full_name := Some "acme/widgets"
|}.

(** The same pull request, from a fork. *)
Definition fork_pull : PullRequest := {|
  title := "Fix the flaky test";
  body := Some "Retries the request once.";
  user_login := Some "octocat";
  base_ref := Some "main";
  head_ref := Some "fix/flaky";
  head_repo_full_name := Some "octocat/widgets";
  base_repo_full_name := Some "acme/widgets"
|}.

Definition one_image (hosted payload : option string) : ImageResponse :=
  {| data := Some [{| url := hosted; b64_json := payload |}] |}.

Definition scenario (pull : PullRequest) (text : string)
    (image : ImageResponse) (write : fetched Written) : Scenario := {|
  sc_pull := ResOk pull;
  sc_files := ResOk [{| status := "modified"; filename := "src/retry.ts" |}];
  sc_text := Resolved text;
  sc_image := Resolved image;
  sc_now := 1700000000000%Z;
  sc_written := write;
  sc_branch := ResBad 404 "Not Found" "{}";
  sc_repo := ResOk {| default_branch := "main" |};
  sc_head := ResOk {| commit_sha := "0123abc" |};
  sc_content := ResBad 404 "Not Found" "{}";
  sc_file := Rejected "ENOENT"
|}.

Definition params : ImageStorage.UploadParams := {|
  ImageStorage.owner := "acme";
  ImageStorage.repo := "widgets";
  ImageStorage.token := "ghp_example";
  ImageStorage.branchName := None;
  ImageStorage.pathInRepo := ".github/patch-picasso/7-1.png";
  ImageStorage.commitMessage := "patch-picasso: add generated image";
  ImageStorage.contentBase64 := "AAAA"
|}.

(** [process.env] with both secrets and the repository. *)
Definition env (variable : string) : option string :=
  if String.eqb variable "GITHUB_TOKEN" then Some "ghp_example"
  else if String.eqb variable "OPENAI_API_KEY" then Some "sk-example"
  else if String.eqb variable "GITHUB_REPOSITORY" then Some "acme/widgets"
  else None.

(** [--pr 7]. *)
Definition args : @Args decimal := {|
  arg_repo := None;
  arg_pr := Some (@JNum decimal 7%Z);
  arg_pr_number := None
|}.

#[local] Existing Instance decimal.
#[local] Existing Instance parser.

(** ** Scenarios *)

Definition no_download : fetched Written :=
  ResOk {| content_download_url := None |}.

Definition CDN : string := "https://cdn.example/picture.png".


(** The text service answers prose and the image service a payload. *)
Definition prose_and_payload (pull : PullRequest) : Scenario :=
  scenario pull "just some prose" (one_image None (Some "AAAA"))
    no_download.

(** The text service answers JSON and the image service a payload. *)
Definition json_and_payload (write : fetched Written) : Scenario :=
  scenario same_repo_pull WELL_FORMED (one_image None (Some "AAAA")) write.

(** The text service answers JSON and the image service nothing usable. *)
Definition json_and_nothing : Scenario :=
  scenario same_repo_pull WELL_FORMED (one_image None None) no_download.

(** A comment left by an earlier run. *)
Definition earlier : Comment :=
  {| comment_body := Some "<!-- patch-picasso --> posted before" |}.

(** ** The events of the examples *)

Definition API : string := "https://api.github.com/repos/acme/widgets".

Definition listing (comments : list Comment) : Event :=
  Ev (HttpGet SComments (API ++ "/issues/7/comments?per_page=100")
        "ghp_example")
     (ResOk comments).

Definition pull_read (pull : PullRequest) : Event :=
  Ev (HttpGet SPull (API ++ "/pulls/7") "ghp_example") (ResOk pull).


Definition image_answer (prompt : string) (image : ImageResponse) : Event :=
  Ev (ImagesGenerate "sk-example" "gpt-image-1" prompt "1024x1024")
     (Resolved image).

Definition PATH : string := ".github/patch-picasso/7-1700000000000.png".


(** ** Runs *)

(** The first run on a pull request without comments. *)
Definition first_run (sc : Scenario) (p : prog unit) :=
  run (github sc) p [].

(** A run on a pull request with the comments that [before] left. *)
Definition next_run {A : Type} (sc : Scenario) (p : prog unit)
    (before : list Event * outcome A * list Comment) :=
  run (github sc) p (state_after before).


End Sample.


(** The caption line of a comment. *)
Definition quote (caption : string) : string :=
  if Js.truthy (Some caption) then "> " ++ caption ++ LF else "".

Section RunPredicates.
Context {JN : JsNumber}.

(** A program that makes no remote call, whatever it is answered. *)
Fixpoint quiet {A : Type} (p : prog A) : Prop :=
  match p with
  | Call r k => is_remote r = false /\ forall x, quiet (k x)
  | _ => True
  end.

(** An event that stays on the machine. *)
Definition local (e : Event) : Prop := is_remote (request e) = false.

(** A comment as either entry point composes it around a caption. *)
Definition composed (caption text : string) : Prop :=
  (exists imageUrl, text = Index.composeBody caption imageUrl) \/
  (exists imageUrl, text = Upload.composeBody caption imageUrl).

End RunPredicates.

(** The two processes of the repository. *)
Definition entry_points {JN : JsNumber} {JP : JsonParser}
    (env : string -> option string) (args : Args) : list (prog unit) :=
  [Index.program env args; Upload.program env args].

(* ================================================================== *)
(** * More to read in a run *)
(* ================================================================== *)

Section Pipeline.
Context {JN : JsNumber} {JP : JsonParser}.

(** The remote calls of a run, in order. *)
Definition pipeline (events : list Event) : list Req :=
  filter is_remote (calls events).

(** The place of a call in the text of [main]: the three reads of GitHub,
    the text service, the image service, the clock and the write of the
    upload, the post of the comment. *)
Definition stage (r : Req) : nat :=
  match r with
  | HttpGet SPull _ _ => 1
  | HttpGet SFiles _ _ => 2
  | HttpGet SComments _ _ => 3
  | GenerateText _ _ _ _ => 4
  | ImagesGenerate _ _ _ _ => 5
  | DateNow => 6
  | HttpPut _ _ _ _ => 7
  | HttpPost _ _ _ _ => 8
  | _ => 0
  end.

(** The calls of a run that [stage] places. *)
Definition staged (events : list Event) : list nat :=
  filter (fun n => negb (Nat.eqb n 0)) (map stage (calls events)).

(** The last call of a run. *)
Definition last_call (events : list Event) : option Req :=
  last (map Some (calls events)) None.

Definition is_clock (r : Req) : bool :=
  match r with DateNow => true | _ => false end.

Definition is_console (r : Req) : bool :=
  match r with Console _ _ => true | _ => false end.

(** The repository that a run works on: the owner and the name that
    [parseRepo] makes of [--repo], or else of [GITHUB_REPOSITORY]. *)
Definition repository (env : string -> option string) (args : Args)
    (id : RepoId) : Prop :=
  exists repo,
    Common.definite (Js.or_else (arg_repo args) (env "GITHUB_REPOSITORY"))
    = Some repo /\
    Common.parseRepo repo = Ret id.

Definition API_ROOT : string := "https://api.github.com/repos/".

(** A call that carries the secret meant for its service and no other,
    and, when it goes to GitHub, an address of the repository of the
    run. *)
Definition addressed (env : string -> option string) (args : Args)
    (r : Req) : Prop :=
  match r with
  | HttpGet _ url token | HttpPost _ url token _ | HttpPut _ url token _ =>
      env "GITHUB_TOKEN" = Some token /\
      exists id,
        repository env args id /\
        String.prefix (API_ROOT ++ owner id ++ "/" ++ name id ++ "/") url
        = true
  | ImagesGenerate apiKey model _ size =>
      env "OPENAI_API_KEY" = Some apiKey /\
      model = "gpt-image-1" /\ size = "1024x1024"
  | GenerateText model system _ maxTokens =>
      model = "gpt-4o-mini" /\ system = Common.promptSystem /\
      maxTokens = 400
  | DateNow | ReadFile _ | Console _ _ => True
  end.

End Pipeline.

Section Always.
Context {JN : JsNumber}.

(** A program all of whose calls satisfy [P], whatever it is answered. *)
Fixpoint always {A : Type} (P : Req -> Prop) (p : prog A) : Prop :=
  match p with
  | Call r k => P r /\ forall x, always P (k x)
  | _ => True
  end.

(** What [main] does before its first request: it reads the file of the
    event and writes to the error stream. *)
Definition preliminary (r : Req) : bool :=
  match r with
  | ReadFile _ | Console Error _ => true
  | _ => false
  end.

End Always.

Section MoreAnswers.
Context {JN : JsNumber}.


(** The answer to the read of a file of the repository. *)
Definition fetched_content (e : Event) : option (fetched ContentInfo) :=
  match e with
  | Ev r x =>
      match r return RespOf r -> option (fetched ContentInfo) with
      | HttpGet sh _ _ =>
          match sh
            return fetched (payload sh) -> option (fetched ContentInfo)
          with
          | SContent => fun x => Some x
          | _ => fun _ => None
          end
      | _ => fun _ => None
      end x
  end.

(** The message of the error that the entry points raise on an answer:
    the wrappers of [fetch] describe an answer that is not OK, and a
    rejected promise is thrown as it is. *)
Definition rejection (e : Event) : option string :=
  match e with
  | Ev r x =>
      match r return RespOf r -> option string with
      | HttpGet _ url _ =>
          fun x =>
            match x with
            | ResOk _ => None
            | ResBad status statusText text =>
                Some ("GitHub API " ++ url ++ " failed: "
                      ++ show_status status ++ " " ++ statusText ++ " - "
                      ++ text)
            | ResRejected m => Some m
            end
      | HttpPost _ url _ _ =>
          fun x =>
            match x with
            | ResOk _ => None
            | ResBad status statusText text =>
                Some ("GitHub API POST " ++ url ++ " failed: "
                      ++ show_status status ++ " " ++ statusText ++ " - "
                      ++ text)
            | ResRejected m => Some m
            end
      | HttpPut _ url _ _ =>
          fun x =>
            match x with
            | ResOk _ => None
            | ResBad status statusText text =>
                Some ("GitHub API PUT " ++ url ++ " failed: "
                      ++ show_status status ++ " " ++ statusText ++ " - "
                      ++ text)
            | ResRejected m => Some m
            end
      | GenerateText _ _ _ _ | ImagesGenerate _ _ _ _ | ReadFile _ =>
          fun x =>
            match x with
            | Resolved _ => None
            | Rejected m => Some m
            end
      | DateNow | Console _ _ => fun _ => None
      end x
  end.

(** The [sha] that a read of a file yields for the write that follows:
    that of the file, or nothing when the read failed. *)
Definition known_sha (x : fetched ContentInfo) : option string :=
  match x with
  | ResOk info => sha info
  | _ => None
  end.

End MoreAnswers.

(** More platforms and more answers of GitHub, for examples. *)
Module Cases.
#[local] Existing Instance Sample.decimal.
#[local] Existing Instance Sample.parser.

(** [process.env] with the token of GitHub and nothing else. *)
Definition token_only (variable : string) : option string :=
  if String.eqb variable "GITHUB_TOKEN" then Some "ghp_example" else None.

(** [process.env] with both secrets and no repository. *)
Definition secrets_only (variable : string) : option string :=
  if String.eqb variable "GITHUB_TOKEN" then Some "ghp_example"
  else if String.eqb variable "OPENAI_API_KEY" then Some "sk-example"
  else None.

Definition EVENT_PATH : string := "/github/workflow/event.json".

(** [process.env] in a workflow run on a [pull_request] event. *)
Definition on_event (variable : string) : option string :=
  if String.eqb variable "GITHUB_EVENT_PATH" then Some EVENT_PATH
  else Sample.env variable.

(** No flag on the command line. *)
Definition no_flags : Args := {|
  arg_repo := None;
  arg_pr := None;
  arg_pr_number := None
|}.

Definition SEVEN : json := JNum 7%Z.

(** [--pr 7 --pr-number 9]. *)
Definition both_flags : Args := {|
  arg_repo := None;
  arg_pr := Some SEVEN;
  arg_pr_number := Some (JNum 9%Z)
|}.

(** What [JSON.parse] makes of the file of the event. *)
Definition EVENT_PULL : json := JObj [("number", SEVEN)].

Definition EVENT_PAYLOAD : json := JObj [("pull_request", EVENT_PULL)].

(** The scenario [sc], with a file of the event that reads
    [{"pull_request":{"number":7}}]. *)
Definition with_event (sc : Sample.Scenario) : Sample.Scenario := {|
  Sample.sc_pull := Sample.sc_pull sc;
  Sample.sc_files := Sample.sc_files sc;
  Sample.sc_text := Sample.sc_text sc;
  Sample.sc_image := Sample.sc_image sc;
  Sample.sc_now := Sample.sc_now sc;
  Sample.sc_written := Sample.sc_written sc;
  Sample.sc_branch := Sample.sc_branch sc;
  Sample.sc_repo := Sample.sc_repo sc;
  Sample.sc_head := Sample.sc_head sc;
  Sample.sc_content := Sample.sc_content sc;
  Sample.sc_file := Resolved Sample.EVENT
|}.

Definition NOT_FOUND {A : Type} : fetched A := ResBad 404 "Not Found" "{}".

(** The scenario [sc], with a pull request that GitHub does not find. *)
Definition without_pull (sc : Sample.Scenario) : Sample.Scenario := {|
  Sample.sc_pull := NOT_FOUND;
  Sample.sc_files := Sample.sc_files sc;
  Sample.sc_text := Sample.sc_text sc;
  Sample.sc_image := Sample.sc_image sc;
  Sample.sc_now := Sample.sc_now sc;
  Sample.sc_written := Sample.sc_written sc;
  Sample.sc_branch := Sample.sc_branch sc;
  Sample.sc_repo := Sample.sc_repo sc;
  Sample.sc_head := Sample.sc_head sc;
  Sample.sc_content := Sample.sc_content sc;
  Sample.sc_file := Sample.sc_file sc
|}.

(** The scenario [sc], with a file already at the path of the upload. *)
Definition with_content (sc : Sample.Scenario) : Sample.Scenario := {|
  Sample.sc_pull := Sample.sc_pull sc;
  Sample.sc_files := Sample.sc_files sc;
  Sample.sc_text := Sample.sc_text sc;
  Sample.sc_image := Sample.sc_image sc;
  Sample.sc_now := Sample.sc_now sc;
  Sample.sc_written := Sample.sc_written sc;
  Sample.sc_branch := Sample.sc_branch sc;
  Sample.sc_repo := Sample.sc_repo sc;
  Sample.sc_head := Sample.sc_head sc;
  Sample.sc_content := ResOk {| sha := Some "4b825dc" |};
  Sample.sc_file := Sample.sc_file sc
|}.

(** A write that GitHub refuses. *)
Definition refused : fetched Written := ResBad 409 "Conflict" "{}".

(** The text service answers JSON and the image service a hosted URL. *)
Definition json_and_hosted : Sample.Scenario :=
  Sample.scenario Sample.same_repo_pull Sample.WELL_FORMED
    (Sample.one_image (Some Sample.CDN) None) Sample.no_download.

(** The requests of the examples. *)
Definition get_pull : Req :=
  HttpGet SPull (Sample.API ++ "/pulls/7") "ghp_example".

Definition put_picture : Req :=
  HttpPut SWritten
    (Sample.API ++ "/contents/.github%2Fpatch-picasso%2F7-1700000000000.png")
    "ghp_example"
    (BContents "patch-picasso: add generated image for PR #7" "AAAA"
       "fix/flaky" None).

Definition get_content : Req :=
  HttpGet SContent
    (Sample.API
     ++ "/contents/.github%2Fpatch-picasso%2F7-1.png?ref=patch-picasso-images")
    "ghp_example".

Definition put_in_images_branch (known : option string) : Req :=
  HttpPut SWritten
    (Sample.API ++ "/contents/.github%2Fpatch-picasso%2F7-1.png")
    "ghp_example"
    (BContents "patch-picasso: add generated image" "AAAA"
       "patch-picasso-images" known).

(** [n] changed files. *)
Definition many_files (n : nat) : list ChangedFile :=
  repeat {| status := "added"; filename := "src/new.ts" |} n.

End Cases.

Unset Implicit Arguments.

(* ================================================================== *)
(** * Facts about strings *)
(* ================================================================== *)

Lemma append_assoc (a b c : string) : (a ++ b) ++ c = a ++ (b ++ c).
Proof. induction a as [| x a IH]; cbn; [reflexivity | now rewrite IH]. Qed.


Lemma length_append (a b : string) :
  String.length (a ++ b) = String.length a + String.length b.
Proof. induction a as [| x a IH]; cbn; [reflexivity | now rewrite IH]. Qed.

Lemma slice0_length (n : nat) (s : string) :
  String.length (Js.slice0 n s) = Nat.min n (String.length s).
Proof.
  revert n. induction s as [| c s IH]; intros [| n]; cbn; try reflexivity.
  now rewrite IH.
Qed.

Lemma slice0_bound (n : nat) (s : string) :
  String.length (Js.slice0 n s) <= n.
Proof. rewrite slice0_length. apply Nat.le_min_l. Qed.

Lemma slice0_prefix (n : nat) (s : string) :
  String.prefix (Js.slice0 n s) s = true.
Proof.
  revert n. induction s as [| c s IH]; intros [| n]; cbn; try reflexivity.
  destruct (ascii_dec c c) as [_ | Hne]; [apply IH | now elim Hne].
Qed.

Lemma prefix_append (p x : string) : String.prefix p (p ++ x) = true.
Proof.
  induction p as [| c p IH]; cbn.
  - now destruct x.
  - destruct (ascii_dec c c) as [_ | Hne]; [exact IH | now elim Hne].
Qed.

Lemma prefix_split (p s : string) :
  String.prefix p s = true -> exists rest, s = p ++ rest.
Proof.
  revert s. induction p as [| c p IH]; intros s H.
  - exists s. reflexivity.
  - destruct s as [| d s]; cbn in H; [discriminate |].
    destruct (ascii_dec c d) as [-> | _]; [| discriminate].
    destruct (IH s H) as [rest ->]. exists rest. reflexivity.
Qed.

(** [includes] finds exactly the substrings. *)
Lemma includes_spec (s pat : string) :
  Js.includes s pat = true <-> exists a b, s = a ++ pat ++ b.
Proof.
  split.
  - induction s as [| c s IH]; cbn [Js.includes]; intros H.
    + rewrite orb_false_r in H. destruct (prefix_split _ _ H) as [b Hb].
      exists "", b. exact Hb.
    + apply orb_true_iff in H. destruct H as [H | H].
      * destruct (prefix_split _ _ H) as [b Hb]. exists "", b. exact Hb.
      * destruct (IH H) as (a & b & ->). exists (String c a), b. reflexivity.
  - intros (a & b & ->). induction a as [| c a IH].
    + cbn [append]. destruct (pat ++ b) eqn:E; cbn [Js.includes];
        rewrite <- E, prefix_append; reflexivity.
    + cbn [append Js.includes]. rewrite IH. apply orb_true_r.
Qed.

Lemma includes_prefix (s pat : string) :
  String.prefix pat s = true -> Js.includes s pat = true.
Proof.
  intros H. destruct (prefix_split _ _ H) as [b ->].
  apply includes_spec. exists "", b. reflexivity.
Qed.


Lemma truthy_show (v : option string) :
  Js.truthy v = true -> v = Some (Js.show v).
Proof. destruct v; cbn; [reflexivity | discriminate]. Qed.

(** ** Splitting at a separator *)






(* ================================================================== *)
(** * Facts about runs *)
(* ================================================================== *)

Section Runs.
Context {JN : JsNumber}.

Lemma run_bind {A B : Type} (W : World) (p : prog A) (f : A -> prog B) :
  forall s,
    run W (bind p f) s =
    let '(events, out, s1) := run W p s in
    match out with
    | Returned a =>
        let '(events2, out2, s2) := run W (f a) s1 in
        ((events ++ events2)%list, out2, s2)
    | Threw m => (events, Threw m, s1)
    | Exited c => (events, Exited c, s1)
    end.
Proof.
  induction p as [a | m | c | r k IH]; intros s; cbn.
  - destruct (run W (f a) s) as [[events2 out2] s2]. reflexivity.
  - reflexivity.
  - reflexivity.
  - destruct (answer W r s) as [x s1]. rewrite IH.
    destruct (run W (k x) s1) as [[events out] s2].
    destruct out as [a | m | c]; try reflexivity.
    destruct (run W (f a) s2) as [[events2 out2] s3]. reflexivity.
Qed.

Lemma run_try_catch {A : Type} (W : World) (p : prog A)
    (h : string -> prog A) :
  forall s,
    run W (try_catch p h) s =
    let '(events, out, s1) := run W p s in
    match out with
    | Threw m =>
        let '(events2, out2, s2) := run W (h m) s1 in
        ((events ++ events2)%list, out2, s2)
    | _ => (events, out, s1)
    end.
Proof.
  induction p as [a | m | c | r k IH]; intros s; cbn.
  - reflexivity.
  - destruct (run W (h m) s) as [[events2 out2] s2]. reflexivity.
  - reflexivity.
  - destruct (answer W r s) as [x s1]. rewrite IH.
    destruct (run W (k x) s1) as [[events out] s2].
    destruct out as [a | m | c]; try reflexivity.
    destruct (run W (h m) s2) as [[events2 out2] s3]. reflexivity.
Qed.

Lemma Ret_injective {A : Type} (a b : A) : @Ret JN A a = Ret b -> a = b.
Proof. intros H. injection H. auto. Qed.

Lemma quiet_bind {A B : Type} (p : prog A) (f : A -> prog B) :
  quiet p -> (forall a, quiet (f a)) -> quiet (bind p f).
Proof.
  induction p as [a | m | c | r k IH]; cbn; intros Hp Hf; auto.
  destruct Hp as [Hr Hk]. split; auto.
Qed.

Lemma quiet_try_catch {A : Type} (p : prog A) (h : string -> prog A) :
  quiet p -> (forall m, quiet (h m)) -> quiet (try_catch p h).
Proof.
  induction p as [a | m | c | r k IH]; cbn; intros Hp Hf; auto.
  destruct Hp as [Hr Hk]. split; auto.
Qed.

Lemma quiet_run {A : Type} (W : World) (p : prog A) :
  quiet p -> forall s, Forall local (events_of (run W p s)).
Proof.
  induction p as [a | m | c | r k IH]; cbn; intros Hp s; try constructor.
  destruct Hp as [Hr Hk].
  destruct (answer W r s) as [x s1].
  specialize (IH x (Hk x) s1).
  destruct (run W (k x) s1) as [[events out] s2]. cbn in *.
  constructor; auto.
Qed.

Lemma posted_app (a b : list Event) :
  posted (a ++ b) = (posted a ++ posted b)%list.
Proof. unfold posted. apply flat_map_app. Qed.

Lemma calls_app (a b : list Event) :
  calls (a ++ b) = (calls a ++ calls b)%list.
Proof. unfold calls. apply map_app. Qed.

(** ** Local events carry no remote call and no remote answer *)

Lemma local_existsb (P : Req -> bool) (events : list Event) :
  (forall r, P r = true -> is_remote r = true) ->
  Forall local events -> existsb P (calls events) = false.
Proof.
  intros HP. unfold calls.
  induction 1 as [| e events He _ IH]; cbn; [reflexivity |].
  rewrite IH, orb_false_r. destruct (P (request e)) eqn:E; [| reflexivity].
  apply HP in E. unfold local in He. congruence.
Qed.

Lemma local_posted (events : list Event) :
  Forall local events -> posted events = [].
Proof.
  unfold posted.
  induction 1 as [| e events He _ IH]; cbn; [reflexivity |].
  rewrite IH, app_nil_r. destruct e as [r x]. unfold local in He.
  destruct r; cbn in *; try reflexivity; discriminate.
Qed.

Lemma local_calls (events : list Event) (r : Req) :
  Forall local events -> In r (calls events) -> is_remote r = false.
Proof.
  intros Hl Hin. unfold calls in Hin. apply in_map_iff in Hin.
  destruct Hin as (e & <- & He). rewrite Forall_forall in Hl.
  exact (Hl e He).
Qed.

Lemma local_not_observed {X : Type} (obs : Event -> option X)
    (events : list Event) (e : Event) (x : X) :
  (forall e x, obs e = Some x -> is_remote (request e) = true) ->
  Forall local events -> In e events -> obs e = Some x -> False.
Proof.
  intros Hobs Hl Hin He. rewrite Forall_forall in Hl.
  specialize (Hl e Hin). apply Hobs in He. unfold local in Hl. congruence.
Qed.

Lemma fetched_comments_remote e x :
  fetched_comments e = Some x -> is_remote (request e) = true.
Proof.
  destruct e as [r y]; destruct r; cbn; try discriminate; reflexivity.
Qed.

Lemma fetched_pull_remote e x :
  fetched_pull e = Some x -> is_remote (request e) = true.
Proof.
  destruct e as [r y]; destruct r; cbn; try discriminate; reflexivity.
Qed.

Lemma generated_text_remote e x :
  generated_text e = Some x -> is_remote (request e) = true.
Proof.
  destruct e as [r y]; destruct r; cbn; try discriminate; reflexivity.
Qed.

Lemma generated_image_remote e x :
  generated_image e = Some x -> is_remote (request e) = true.
Proof.
  destruct e as [r y]; destruct r; cbn; try discriminate; reflexivity.
Qed.


Lemma is_image_generation_remote r :
  is_image_generation r = true -> is_remote r = true.
Proof. destruct r; cbn; congruence. Qed.

Lemma is_post_remote r : is_post r = true -> is_remote r = true.
Proof. destruct r; cbn; congruence. Qed.

Lemma is_put_remote r : is_put r = true -> is_remote r = true.
Proof. destruct r; cbn; congruence. Qed.

End Runs.

(** The scrutinee on which a program is waiting. *)
Ltac stuck p :=
  lazymatch p with
  | bind ?q _ => stuck q
  | try_catch ?q _ => stuck q
  | match ?x with _ => _ end => x
  end.

(* ================================================================== *)
(** * The parts of [main] that call no service *)
(* ================================================================== *)

Section Prelude.
Context {JN : JsNumber} {JP : JsonParser}.

(** Resolving the context makes no remote call. *)
Lemma resolveContext_quiet env args :
  quiet (Common.resolveContext env args).
Proof.
  unfold Common.resolveContext, Common.getEnv, Common.getEventPayload,
    Common.parseRepo, Common.read, Common.render, await, call.
  repeat first
    [ progress cbn [quiet bind try_catch is_remote]
    | apply quiet_bind
    | apply quiet_try_catch
    | split
    | intro
    | reflexivity
    | exact I
    | match goal with
      | |- quiet (match ?x with _ => _ end) => destruct x
      end ].
Qed.

(** The [try]/[catch] around [JSON.parse] always comes out with a prompt
    and a caption. *)
Lemma parseStructured_returns structured :
  exists p, Common.parseStructured structured = Ret p.
Proof.
  unfold Common.parseStructured, Common.field_text, Common.read,
    Common.render, Common.or_value.
  repeat first
    [ progress cbn [bind try_catch]
    | match goal with
      | |- exists p, Ret _ = Ret p => eexists; reflexivity
      | |- context [try_catch ?p _] => let x := stuck p in destruct x
      end ].
Qed.

Lemma parseStructured_fallback structured :
  JSON_parse structured = None ->
  Common.parseStructured structured =
  Ret (Js.slice0 800 structured, Common.DEFAULT_CAPTION).
Proof. unfold Common.parseStructured. intros ->. reflexivity. Qed.

Lemma parseStructured_bounds structured imagePrompt caption :
  Common.parseStructured structured = Ret (imagePrompt, caption) ->
  String.length imagePrompt <= 800 /\ String.length caption <= 200.
Proof.
  unfold Common.parseStructured, Common.field_text, Common.read,
    Common.render, Common.or_value.
  repeat first
    [ progress cbn [bind try_catch]
    | match goal with
      | |- Ret _ = Ret _ -> _ =>
          let H := fresh in
          intros H; apply Ret_injective, pair_equal_spec in H;
          destruct H as [<- <-]; split;
          [ apply slice0_bound
          | first [apply slice0_bound | cbn; lia] ]
      | |- context [try_catch ?p _] => let x := stuck p in destruct x
      end ].
Qed.

(** Two non-empty strings under the two keys are cut and kept. *)
Lemma parseStructured_strings structured parsed a b :
  JSON_parse structured = Some parsed ->
  get parsed "imagePrompt" = Some (Some (JStr a)) -> a <> "" ->
  get parsed "caption" = Some (Some (JStr b)) -> b <> "" ->
  Common.parseStructured structured =
  Ret (Js.slice0 800 a, Js.slice0 200 b).
Proof.
  intros Hp Ha Hna Hb Hnb.
  unfold Common.parseStructured, Common.field_text, Common.read,
    Common.render, Common.or_value.
  rewrite Hp, Ha, Hb.
  destruct a; [now elim Hna |]. destruct b; [now elim Hnb |].
  reflexivity.
Qed.

Lemma existing_marker comments c text :
  In c comments -> comment_body c = Some text ->
  Js.includes text Common.MARKER = true ->
  exists c', Common.existing comments = Some c'.
Proof.
  unfold Common.existing. intros Hin Hb Hm.
  induction comments as [| d rest IH]; cbn; [contradiction |].
  destruct (Common.has_marker d) eqn:E; [eauto |].
  destruct Hin as [-> | Hin]; [| auto].
  unfold Common.has_marker in E. rewrite Hb in E. congruence.
Qed.

End Prelude.

(* ================================================================== *)
(** * Running an entry point symbolically *)
(* ================================================================== *)

(** One step of a run: reduce, ask the world for its answer and split on
    it, or split on the value the program is waiting on. *)
Ltac exec_step :=
  first
    [ progress cbn [run bind try_catch call await events_of outcome_of
                    state_after fst snd app
                    Common.pr Common.caption Common.image]
    | match goal with
      | |- context [answer ?W ?r ?s] =>
          let x := fresh "x" in
          let s' := fresh "s" in
          destruct (answer W r s) as [x s']; cbn in x; try destruct x
      end
    | match goal with
      | |- context [bind (Common.parseStructured ?t) _] =>
          let ip := fresh "imagePrompt" in
          let cap := fresh "caption" in
          let H := fresh "Hparse" in
          destruct (parseStructured_returns t) as [[ip cap] H]; rewrite H
      end
    | match goal with
      | |- context [run _ ?p _] =>
          let x := stuck p in destruct x eqn:?
      end ].

(** All the runs of an entry point: the events of the resolution of the
    context, which are local, followed by one explicit list of events per
    way the services can answer. *)
Ltac enter_program W env args s ev0 Hq :=
  rewrite run_try_catch, run_bind;
  pose proof (quiet_run W _ (resolveContext_quiet env args) s) as Hq;
  destruct (run W (Common.resolveContext env args) s)
    as [[ev0 [[?ctx |] | ?m | ?c]] ?s];
  cbn [events_of fst] in Hq;
  unfold Common.generate, Common.fetchJson, Common.postJson,
    Index.resolveImage, Upload.resolveImage, Upload.upload, Upload.putJson;
  repeat exec_step;
  rewrite <- ?app_assoc; cbn [app].

(** Finds which event of a run an observed answer belongs to. *)
Ltac locate Hin Hobs Hq remote :=
  first
    [ apply in_app_or in Hin; destruct Hin as [Hin | Hin];
      [ exfalso; exact (local_not_observed _ _ _ _ remote Hq Hin Hobs)
      | cbn [In] in Hin;
        repeat (destruct Hin as [Hin | Hin]);
        try contradiction; subst; cbn in Hobs; try discriminate ]
    | exfalso; exact (local_not_observed _ _ _ _ remote Hq Hin Hobs) ].

(** Evaluates the observations of a run whose first events are local. *)
Ltac observe Hq :=
  rewrite ?calls_app, ?existsb_app, ?posted_app,
    ?(local_existsb _ _ is_image_generation_remote Hq),
    ?(local_existsb _ _ is_post_remote Hq),
    ?(local_existsb _ _ is_put_remote Hq),
    ?(local_posted _ Hq);
  cbn [calls map request existsb is_image_generation is_post is_put orb
       posted flat_map posted_comment app].

(** Membership in an explicit list. *)
Ltac in_list :=
  rewrite <- ?app_assoc, ?calls_app;
  try (apply in_or_app; right);
  cbn [In app calls map request];
  repeat first [left; reflexivity | right].

(** The prompt that reached the image service. *)
Ltac same_prompt Hq :=
  let Hcall := fresh "Hcall" in
  intros ? ? ? ? Hcall;
  rewrite calls_app in Hcall; apply in_app_or in Hcall;
  destruct Hcall as [Hcall | Hcall];
  [ apply (local_calls _ _ Hq) in Hcall; discriminate
  | cbn [calls map request In] in Hcall;
    repeat (destruct Hcall as [Hcall | Hcall]);
    try discriminate; try contradiction;
    injection Hcall as _ _ <- _; reflexivity ].

(* ================================================================== *)
(** * The repository string (C4) *)
(* ================================================================== *)

Section RepositoryString.
Context {JN : JsNumber} {JP : JsonParser}.

Lemma definite_some (v : option string) (s : string) :
  Common.definite v = Some s <-> v = Some s /\ s <> "".
Proof.
  unfold Common.definite.
  destruct v as [[| c t] |]; cbn; split.
  - discriminate.
  - intros [[= <-] H]. now elim H.
  - intros [= <-]. split; [reflexivity | discriminate].
  - intros [[= <-] _]. reflexivity.
  - discriminate.
  - intros [[=] _].
Qed.

(** [parseRepo] looks at the first two pieces only. *)
Lemma parseRepo_pieces (repo : string) :
  Common.parseRepo repo =
  match Js.split "/" repo with
  | first :: second :: _ =>
      if Js.truthy (Some first) && Js.truthy (Some second)
      then Ret {| owner := first; name := second |}
      else Throw ("Invalid repo string: " ++ repo)
  | _ => Throw ("Invalid repo string: " ++ repo)
  end.
Proof.
  unfold Common.parseRepo, Common.definite, Js.at_index.
  destruct (Js.split "/" repo) as [| [| c first] [| [| d second] rest]];
    reflexivity.
Qed.

Lemma parseRepo_total (repo : string) :
  (exists id, Common.parseRepo repo = Ret id) \/
  Common.parseRepo repo = Throw ("Invalid repo string: " ++ repo).
Proof.
  rewrite parseRepo_pieces.
  destruct (Js.split "/" repo) as [| first [| second rest]]; auto.
  destruct (Js.truthy (Some first) && Js.truthy (Some second)); eauto.
Qed.







End RepositoryString.

(* ================================================================== *)
(** * Idempotency (C1, C9) *)
(* ================================================================== *)

Section Idempotency.
Context {JN : JsNumber} {JP : JsonParser}.

Lemma marker_short_circuit env args p (W : World) (s : state W)
    e comments c text :
  In p (entry_points env args) ->
  In e (events_of (run W p s)) ->
  fetched_comments e = Some (ResOk comments) ->
  In c comments -> comment_body c = Some text ->
  Js.includes text Common.MARKER = true ->
  existsb is_image_generation (calls (events_of (run W p s))) = false /\
  existsb is_post (calls (events_of (run W p s))) = false /\
  posted (events_of (run W p s)) = [] /\
  outcome_of (run W p s) = Returned tt.
Proof.
  intros Hp.
  destruct Hp as [<- | [<- | []]].
  - unfold Index.program, Common.entry, Index.main.
    enter_program W env args s ev0 Hq.
    all: intros Hin Hobs Hc Hbody Hmark.
    all: locate Hin Hobs Hq fetched_comments_remote.
    all: injection Hobs as ->.
    all: destruct (existing_marker _ _ _ Hc Hbody Hmark) as [c' Hex].
    all: try congruence.
    all: observe Hq.
    all: repeat split; reflexivity.
  - unfold Upload.program, Common.entry, Upload.main.
    enter_program W env args s ev0 Hq.
    all: intros Hin Hobs Hc Hbody Hmark.
    all: locate Hin Hobs Hq fetched_comments_remote.
    all: injection Hobs as ->.
    all: destruct (existing_marker _ _ _ Hc Hbody Hmark) as [c' Hex].
    all: try congruence.
    all: observe Hq.
    all: repeat split; reflexivity.
Qed.

(** C1.  In a run of either entry point in which the listing of the
    comments was answered with a list that holds a comment whose body
    includes the marker, the image service is not called, nothing is
    posted, and the process ends by returning, with exit code zero. *)
Theorem existing_marker_short_circuits env args p (W : World)
    (s : state W) e comments c text :
  In p (entry_points env args) ->
  In e (events_of (run W p s)) ->
  fetched_comments e = Some (ResOk comments) ->
  In c comments -> comment_body c = Some text ->
  Js.includes text Common.MARKER = true ->
  existsb is_image_generation (calls (events_of (run W p s))) = false /\
  existsb is_post (calls (events_of (run W p s))) = false /\
  posted (events_of (run W p s)) = [] /\
  outcome_of (run W p s) = Returned tt /\
  exit_code (outcome_of (run W p s)) = 0%Z.
Proof.
  intros Hp Hin Hobs Hc Hbody Hmark.
  destruct (marker_short_circuit env args p W s e comments c text
              Hp Hin Hobs Hc Hbody Hmark) as (H1 & H2 & H3 & H4).
  rewrite H4. repeat split; assumption.
Qed.

Lemma composeBody_marker_index caption imageUrl :
  String.prefix Common.MARKER (Index.composeBody caption imageUrl) = true.
Proof. apply prefix_append. Qed.

Lemma composeBody_marker_upload caption imageUrl :
  String.prefix Common.MARKER (Upload.composeBody caption imageUrl) = true.
Proof. apply prefix_append. Qed.

Lemma posted_start_with_marker env args p (W : World) (s : state W) :
  In p (entry_points env args) ->
  Forall (fun text => String.prefix Common.MARKER text = true)
    (posted (events_of (run W p s))).
Proof.
  intros Hp.
  destruct Hp as [<- | [<- | []]].
  - unfold Index.program, Common.entry, Index.main.
    enter_program W env args s ev0 Hq.
    all: observe Hq.
    all: repeat constructor.
    all: apply composeBody_marker_index.
  - unfold Upload.program, Common.entry, Upload.main.
    enter_program W env args s ev0 Hq.
    all: observe Hq.
    all: repeat constructor.
    all: apply composeBody_marker_upload.
Qed.

(** C9.  Every comment that either entry point posts begins with the
    marker.  Hence a later run of either entry point, whose listing of the
    comments is answered with a list that holds a comment with the body of
    a comment posted before, calls no image service, posts nothing and
    returns. *)
Theorem posted_comment_stops_the_next_run env args p (W : World)
    (s : state W) :
  In p (entry_points env args) ->
  Forall (fun text => String.prefix Common.MARKER text = true)
    (posted (events_of (run W p s))) /\
  forall text,
    In text (posted (events_of (run W p s))) ->
    forall env' args' p' (W' : World) (s' : state W') e comments c,
      In p' (entry_points env' args') ->
      In e (events_of (run W' p' s')) ->
      fetched_comments e = Some (ResOk comments) ->
      In c comments -> comment_body c = Some text ->
      existsb is_image_generation (calls (events_of (run W' p' s')))
      = false /\
      posted (events_of (run W' p' s')) = [] /\
      outcome_of (run W' p' s') = Returned tt.
Proof.
  intros Hp. pose proof (posted_start_with_marker env args p W s Hp) as Hm.
  split; [exact Hm |].
  intros text Hin env' args' p' W' s' e comments c Hp' He Hobs Hc Hbody.
  rewrite Forall_forall in Hm. apply Hm, includes_prefix in Hin.
  destruct (marker_short_circuit env' args' p' W' s' e comments c text
              Hp' He Hobs Hc Hbody Hin) as (H1 & _ & H3 & H4).
  repeat split; assumption.
Qed.

End Idempotency.

(* ================================================================== *)
(** * The picture in the comment (C2, C3, C10) *)
(* ================================================================== *)

Section Picture.
Context {JN : JsNumber} {JP : JsonParser}.

Lemma not_eligible pr b64 :
  head_repo_full_name pr <> base_repo_full_name pr \/
  Js.truthy (head_ref pr) = false ->
  Upload.eligible pr b64 = false.
Proof.
  unfold Upload.eligible. intros [H | H].
  - destruct (Upload.strict_eq _ _) eqn:E.
    + exfalso. apply H. unfold Upload.strict_eq in E.
      destruct (head_repo_full_name pr), (base_repo_full_name pr);
        try discriminate; [| reflexivity].
      apply String.eqb_eq in E. now subst.
    + now rewrite !andb_false_r.
  - rewrite H. now rewrite !andb_false_r.
Qed.

Lemma composeBody_unavailable caption :
  Upload.composeBody caption None =
  Common.MARKER ++ LF ++ LF ++ LF ++ quote (Js.slice0 500 caption) ++ LF
  ++ LF ++ Upload.UNAVAILABLE ++ LF ++ LF ++ Common.ATTRIBUTION.
Proof.
  unfold Upload.composeBody, Js.join, quote.
  cbn [String.concat Js.truthy]. rewrite !append_assoc. reflexivity.
Qed.

Lemma includes_unavailable caption :
  Js.includes (Upload.composeBody caption None) Upload.UNAVAILABLE = true.
Proof.
  apply includes_spec. rewrite composeBody_unavailable.
  exists (Common.MARKER ++ LF ++ LF ++ LF ++ quote (Js.slice0 500 caption)
          ++ LF ++ LF),
         (LF ++ LF ++ Common.ATTRIBUTION).
  rewrite !append_assoc. reflexivity.
Qed.

Lemma includes_image_index caption imageUrl :
  Js.includes (Index.composeBody caption imageUrl)
    ("![Funny PR Image](" ++ imageUrl ++ ")") = true.
Proof.
  apply includes_spec.
  unfold Index.composeBody, Js.join. cbn [String.concat].
  match goal with
  | |- context [?q ++ LF ++ "" ++ LF ++ _] =>
      exists (Common.MARKER ++ LF ++ LF ++ LF ++ q ++ LF ++ "" ++ LF),
             (LF ++ "" ++ LF ++ Common.ATTRIBUTION)
  end.
  rewrite !append_assoc. reflexivity.
Qed.


(** C2.  In a run of the entry point that uploads to the head branch,
    when the image service answered with a base64 payload and no hosted
    URL, and the pull request comes from another repository or has no
    head branch name, nothing is written to the repository and the one
    comment that is posted is composed without an image URL: after the
    marker and the caption line it reads [(Generated image unavailable)]. *)
Theorem fork_or_missing_branch_skips_upload env args (W : World)
    (s : state W) e1 pr e2 image :
  In e1 (events_of (run W (Upload.program env args) s)) ->
  fetched_pull e1 = Some (ResOk pr) ->
  In e2 (events_of (run W (Upload.program env args) s)) ->
  generated_image e2 = Some (Resolved image) ->
  Js.truthy (Common.first_url image) = false ->
  Js.truthy (Common.first_b64 image) = true ->
  head_repo_full_name pr <> base_repo_full_name pr \/
  Js.truthy (head_ref pr) = false ->
  existsb is_put (calls (events_of (run W (Upload.program env args) s)))
  = false /\
  exists caption,
    posted (events_of (run W (Upload.program env args) s))
    = [Upload.composeBody caption None] /\
    Upload.composeBody caption None =
    Common.MARKER ++ LF ++ LF ++ LF ++ quote (Js.slice0 500 caption) ++ LF
    ++ LF ++ Upload.UNAVAILABLE ++ LF ++ LF ++ Common.ATTRIBUTION /\
    Js.includes (Upload.composeBody caption None) Upload.UNAVAILABLE = true.
Proof.
  unfold Upload.program, Common.entry, Upload.main.
  enter_program W env args s ev0 Hq.
  all: intros Hin1 Hobs1 Hin2 Hobs2 Hurl Hb64 Hfork.
  all: locate Hin1 Hobs1 Hq fetched_pull_remote.
  all: locate Hin2 Hobs2 Hq generated_image_remote.
  all: injection Hobs1 as ->; injection Hobs2 as ->.
  all: try (rewrite (not_eligible _ _ Hfork) in *; discriminate).
  all: rewrite ?negb_true_iff, ?negb_false_iff in *.
  all: try congruence.
  all: observe Hq.
  all: split; [reflexivity |].
  all: eexists; split; [| split];
    [ | apply composeBody_unavailable | apply includes_unavailable ].
  all: destruct (Common.first_url image) as [[| ? ?] |];
    try discriminate; reflexivity.
Qed.

(** C10.  In a run of [src/index.ts] in which the image service answered
    with a base64 payload and no hosted URL, nothing is written to the
    repository, and the one comment that is posted embeds the picture as
    a [data:image/png;base64,] URL; the run returns unless a call
    fails. *)
Theorem index_embeds_payload_as_data_url env args (W : World)
    (s : state W) e image b64 :
  In e (events_of (run W (Index.program env args) s)) ->
  generated_image e = Some (Resolved image) ->
  Js.truthy (Common.first_url image) = false ->
  Common.first_b64 image = Some b64 -> b64 <> "" ->
  existsb is_put (calls (events_of (run W (Index.program env args) s)))
  = false /\
  (exists caption imageUrl,
      imageUrl = "data:image/png;base64," ++ b64 /\
      posted (events_of (run W (Index.program env args) s))
      = [Index.composeBody caption imageUrl] /\
      Js.includes (Index.composeBody caption imageUrl)
        ("![Funny PR Image](" ++ imageUrl ++ ")") = true) /\
  (existsb failed (events_of (run W (Index.program env args) s)) = false ->
   outcome_of (run W (Index.program env args) s) = Returned tt).
Proof.
  unfold Index.program, Common.entry, Index.main.
  enter_program W env args s ev0 Hq.
  all: intros Hin Hobs Hurl Hb64 Hne.
  all: locate Hin Hobs Hq generated_image_remote.
  all: injection Hobs as ->.
  all: rewrite ?Hurl, ?Hb64 in *.
  all: destruct b64 as [| c b]; [now elim Hne |].
  all: cbn [negb Js.truthy Js.show] in *.
  all: try discriminate.
  all: observe Hq.
  all: split; [reflexivity |].
  all: split;
    [ eexists; eexists; split; [reflexivity |];
      split; [reflexivity | apply includes_image_index] | ].
  all: intros Hok; try reflexivity; exfalso.
  all: cbn [existsb failed orb] in Hok; rewrite ?orb_true_r in Hok.
  all: discriminate.
Qed.


End Picture.

(* ================================================================== *)
(** * The prompt and the caption (C5, C8) *)
(* ================================================================== *)

Section PromptAndCaption.
Context {JN : JsNumber} {JP : JsonParser}.

(** A run that got a text from the text service turned it into one
    prompt and one caption, sent that prompt to the image service and
    posts nothing but that caption. *)
Lemma text_is_parsed env args p (W : World) (s : state W) e structured :
  In p (entry_points env args) ->
  In e (events_of (run W p s)) ->
  generated_text e = Some (Resolved structured) ->
  exists imagePrompt caption,
    Common.parseStructured structured = Ret (imagePrompt, caption) /\
    (exists key model size,
        In (ImagesGenerate key model imagePrompt size)
          (calls (events_of (run W p s)))) /\
    (forall key model prompt size,
        In (ImagesGenerate key model prompt size)
          (calls (events_of (run W p s))) ->
        prompt = imagePrompt) /\
    (forall text,
        In text (posted (events_of (run W p s))) -> composed caption text).
Proof.
  intros Hp.
  destruct Hp as [<- | [<- | []]].
  - unfold Index.program, Common.entry, Index.main.
    enter_program W env args s ev0 Hq.
    all: intros Hin Hobs.
    all: locate Hin Hobs Hq generated_text_remote.
    all: injection Hobs as ->.
    all: exists imagePrompt, caption.
    all: split; [exact Hparse |].
    all: split; [do 3 eexists; in_list |].
    all: split; [same_prompt Hq |].
    all: observe Hq; intros posting Hpost; cbn [In] in Hpost.
    all: try contradiction; destruct Hpost as [<- | []].
    all: left; eexists; reflexivity.
  - unfold Upload.program, Common.entry, Upload.main.
    enter_program W env args s ev0 Hq.
    all: intros Hin Hobs.
    all: locate Hin Hobs Hq generated_text_remote.
    all: injection Hobs as ->.
    all: exists imagePrompt, caption.
    all: split; [exact Hparse |].
    all: split; [do 3 eexists; in_list |].
    all: split; [same_prompt Hq |].
    all: observe Hq; intros posting Hpost; cbn [In] in Hpost.
    all: try contradiction; destruct Hpost as [<- | []].
    all: right; eexists; reflexivity.
Qed.

(** C5.  When the answer of the text service is not JSON, the image
    prompt is the first 800 characters of the answer and the caption is
    the default caption; a run of either entry point that got this answer
    does not stop there: it calls the image service with that prompt, and
    what it posts carries the default caption. *)
Theorem malformed_text_falls_back env structured :
  JSON_parse structured = None ->
  Common.parseStructured structured =
  Ret (Js.slice0 800 structured, Common.DEFAULT_CAPTION) /\
  String.length (Js.slice0 800 structured)
  = Nat.min 800 (String.length structured) /\
  String.prefix (Js.slice0 800 structured) structured = true /\
  forall args p (W : World) (s : state W) e,
    In p (entry_points env args) ->
    In e (events_of (run W p s)) ->
    generated_text e = Some (Resolved structured) ->
    (exists key model size,
        In (ImagesGenerate key model (Js.slice0 800 structured) size)
          (calls (events_of (run W p s)))) /\
    (forall text,
        In text (posted (events_of (run W p s))) ->
        composed Common.DEFAULT_CAPTION text).
Proof.
  intros Hbad. pose proof (parseStructured_fallback _ Hbad) as Hfb.
  split; [exact Hfb |].
  split; [apply slice0_length |].
  split; [apply slice0_prefix |].
  intros args p W s e Hp Hin Hobs.
  destruct (text_is_parsed env args p W s e structured Hp Hin Hobs)
    as (imagePrompt & caption & Hparse & Hcall & _ & Hpost).
  rewrite Hfb in Hparse.
  apply Ret_injective, pair_equal_spec in Hparse.
  destruct Hparse as [<- <-]. split; assumption.
Qed.

(** C8.  When the answer of the text service is JSON, the image prompt
    has at most 800 characters and the caption at most 200, whatever the
    values in the answer: two non-empty strings under the keys
    [imagePrompt] and [caption] are cut to their first 800 and 200
    characters.  In a run of either entry point that got this answer, the
    prompt sent to the image service and the caption of what is posted are
    these. *)
Theorem parsed_text_is_truncated env structured parsed :
  JSON_parse structured = Some parsed ->
  exists imagePrompt caption,
    Common.parseStructured structured = Ret (imagePrompt, caption) /\
    String.length imagePrompt <= 800 /\
    String.length caption <= 200 /\
    (forall a b,
        get parsed "imagePrompt" = Some (Some (JStr a)) -> a <> "" ->
        get parsed "caption" = Some (Some (JStr b)) -> b <> "" ->
        imagePrompt = Js.slice0 800 a /\ caption = Js.slice0 200 b) /\
    forall args p (W : World) (s : state W) e,
      In p (entry_points env args) ->
      In e (events_of (run W p s)) ->
      generated_text e = Some (Resolved structured) ->
      (forall key model prompt size,
          In (ImagesGenerate key model prompt size)
            (calls (events_of (run W p s))) ->
          prompt = imagePrompt) /\
      (forall text,
          In text (posted (events_of (run W p s))) ->
          composed caption text).
Proof.
  intros Hjson.
  destruct (parseStructured_returns structured)
    as [[imagePrompt caption] Hp].
  exists imagePrompt, caption.
  destruct (parseStructured_bounds _ _ _ Hp) as [H1 H2].
  repeat (split; [assumption |]).
  split.
  - intros a b Ha Hna Hb Hnb.
    rewrite (parseStructured_strings _ _ _ _ Hjson Ha Hna Hb Hnb) in Hp.
    apply Ret_injective, pair_equal_spec in Hp.
    destruct Hp as [<- <-]. split; reflexivity.
  - intros args p W s e Hin He Hobs.
    destruct (text_is_parsed env args p W s e structured Hin He Hobs)
      as (ip & cap & Hparse & _ & Hcall & Hpost).
    rewrite Hp in Hparse.
    apply Ret_injective, pair_equal_spec in Hparse.
    destruct Hparse as [<- <-]. split; assumption.
Qed.

End PromptAndCaption.

(* ================================================================== *)
(** * Uploading the picture (C6, C7) *)
(* ================================================================== *)

Section Uploading.
Context {JN : JsNumber} {JP : JsonParser}.



End Uploading.

(* ================================================================== *)
(** * The theorems at work on concrete runs *)
(* ================================================================== *)

Section Examples.
#[local] Existing Instance Sample.decimal.
#[local] Existing Instance Sample.parser.

(** Membership of an event in a computed run. *)
Ltac happened := vm_compute; repeat first [left; reflexivity | right].

(** C1 at work: [src/index.ts] on a pull request that carries a comment of
    an earlier run. *)
Lemma existing_marker_short_circuits_witness :
  In (Sample.listing [Sample.earlier])
    (events_of
       (run (Sample.github (Sample.prose_and_payload Sample.same_repo_pull))
          (Index.program Sample.env Sample.args) [Sample.earlier])) /\
  posted
    (events_of
       (run (Sample.github (Sample.prose_and_payload Sample.same_repo_pull))
          (Index.program Sample.env Sample.args) [Sample.earlier])) = [] /\
  exit_code
    (outcome_of
       (run (Sample.github (Sample.prose_and_payload Sample.same_repo_pull))
          (Index.program Sample.env Sample.args) [Sample.earlier])) = 0%Z.
Proof.
  assert (H : In (Sample.listing [Sample.earlier])
    (events_of
       (run (Sample.github (Sample.prose_and_payload Sample.same_repo_pull))
          (Index.program Sample.env Sample.args) [Sample.earlier]))).
  { happened. }
  split; [exact H |].
  destruct (existing_marker_short_circuits Sample.env Sample.args
              (Index.program Sample.env Sample.args)
              (Sample.github (Sample.prose_and_payload Sample.same_repo_pull))
              [Sample.earlier] (Sample.listing [Sample.earlier])
              [Sample.earlier] Sample.earlier
              "<!-- patch-picasso --> posted before")
    as (_ & _ & Hposted & _ & Hexit).
  - left; reflexivity.
  - exact H.
  - reflexivity.
  - left; reflexivity.
  - reflexivity.
  - reflexivity.
  - split; assumption.
Defined.

(** C2 at work: a pull request from a fork, a payload and no hosted URL. *)
Lemma fork_or_missing_branch_skips_upload_witness :
  head_repo_full_name Sample.fork_pull <> base_repo_full_name Sample.fork_pull
  /\
  existsb is_put
    (calls
       (events_of
          (run (Sample.github (Sample.prose_and_payload Sample.fork_pull))
             (Upload.program Sample.env Sample.args) []))) = false /\
  exists caption,
    posted
      (events_of
         (run (Sample.github (Sample.prose_and_payload Sample.fork_pull))
            (Upload.program Sample.env Sample.args) []))
    = [Upload.composeBody caption None].
Proof.
  assert (Hfork : head_repo_full_name Sample.fork_pull
                  <> base_repo_full_name Sample.fork_pull) by discriminate.
  split; [exact Hfork |].
  destruct (fork_or_missing_branch_skips_upload Sample.env Sample.args
              (Sample.github (Sample.prose_and_payload Sample.fork_pull)) []
              (Sample.pull_read Sample.fork_pull) Sample.fork_pull
              (Sample.image_answer "just some prose"
                 (Sample.one_image None (Some "AAAA")))
              (Sample.one_image None (Some "AAAA")))
    as (Hput & caption & Hposted & _ & _).
  - happened.
  - reflexivity.
  - happened.
  - reflexivity.
  - reflexivity.
  - reflexivity.
  - left. exact Hfork.
  - split; [exact Hput |]. exists caption. exact Hposted.
Defined.

(** C10 at work: [src/index.ts], a payload and no hosted URL. *)
Lemma index_embeds_payload_as_data_url_witness :
  posted
    (events_of
       (run (Sample.github (Sample.prose_and_payload Sample.same_repo_pull))
          (Index.program Sample.env Sample.args) []))
  = [Index.composeBody Common.DEFAULT_CAPTION "data:image/png;base64,AAAA"]
  /\
  outcome_of
    (run (Sample.github (Sample.prose_and_payload Sample.same_repo_pull))
       (Index.program Sample.env Sample.args) [])
  = Returned tt.
Proof.
  destruct (index_embeds_payload_as_data_url Sample.env Sample.args
              (Sample.github (Sample.prose_and_payload Sample.same_repo_pull))
              []
              (Sample.image_answer "just some prose"
                 (Sample.one_image None (Some "AAAA")))
              (Sample.one_image None (Some "AAAA")) "AAAA")
    as (_ & _ & Hreturn).
  - happened.
  - reflexivity.
  - reflexivity.
  - reflexivity.
  - discriminate.
  - split; [reflexivity |]. apply Hreturn. reflexivity.
Defined.





(** C5 at work: prose instead of JSON. *)
Lemma malformed_text_falls_back_witness :
  JSON_parse "just some prose" = None /\
  Common.parseStructured "just some prose"
  = Ret ("just some prose", Common.DEFAULT_CAPTION).
Proof.
  assert (H : JSON_parse "just some prose" = None) by reflexivity.
  split; [exact H |].
  exact (proj1 (malformed_text_falls_back Sample.env "just some prose" H)).
Defined.

(** C8 at work: a JSON answer. *)
Lemma parsed_text_is_truncated_witness :
  JSON_parse Sample.WELL_FORMED
  = Some (JObj [("imagePrompt", JStr "a cat coding");
                ("caption", JStr "meow-ge requests")]) /\
  exists imagePrompt caption,
    Common.parseStructured Sample.WELL_FORMED = Ret (imagePrompt, caption) /\
    String.length imagePrompt <= 800 /\ String.length caption <= 200.
Proof.
  assert (H : JSON_parse Sample.WELL_FORMED
              = Some (JObj [("imagePrompt", JStr "a cat coding");
                            ("caption", JStr "meow-ge requests")]))
    by reflexivity.
  split; [exact H |].
  destruct (parsed_text_is_truncated Sample.env Sample.WELL_FORMED _ H)
    as (imagePrompt & caption & Hp & H1 & H2 & _).
  exists imagePrompt, caption. repeat split; assumption.
Defined.



(** C9 at work: the sibling entry point runs right after [src/index.ts] has
    posted, on a GitHub that remembers the comment. *)
Lemma posted_comment_stops_the_next_run_witness :
  posted
    (events_of
       (Sample.first_run (Sample.prose_and_payload Sample.same_repo_pull)
          (Index.program Sample.env Sample.args)))
  = [Index.composeBody Common.DEFAULT_CAPTION "data:image/png;base64,AAAA"]
  /\
  posted
    (events_of
       (Sample.next_run (Sample.prose_and_payload Sample.same_repo_pull)
          (Upload.program Sample.env Sample.args)
          (Sample.first_run (Sample.prose_and_payload Sample.same_repo_pull)
             (Index.program Sample.env Sample.args)))) = [] /\
  outcome_of
    (Sample.next_run (Sample.prose_and_payload Sample.same_repo_pull)
       (Upload.program Sample.env Sample.args)
       (Sample.first_run (Sample.prose_and_payload Sample.same_repo_pull)
          (Index.program Sample.env Sample.args))) = Returned tt.
Proof.
  split; [reflexivity |].
  destruct (posted_comment_stops_the_next_run Sample.env Sample.args
              (Index.program Sample.env Sample.args)
              (Sample.github (Sample.prose_and_payload Sample.same_repo_pull))
              [])
    as [_ Hnext].
  - left; reflexivity.
  - destruct (Hnext
                (Index.composeBody Common.DEFAULT_CAPTION
                   "data:image/png;base64,AAAA")
                (or_introl eq_refl)
                Sample.env Sample.args
                (Upload.program Sample.env Sample.args)
                (Sample.github
                   (Sample.prose_and_payload Sample.same_repo_pull))
                [{| comment_body :=
                      Some (Index.composeBody Common.DEFAULT_CAPTION
                              "data:image/png;base64,AAAA") |}]
                (Sample.listing
                   [{| comment_body :=
                         Some (Index.composeBody Common.DEFAULT_CAPTION
                                 "data:image/png;base64,AAAA") |}])
                [{| comment_body :=
                      Some (Index.composeBody Common.DEFAULT_CAPTION
                              "data:image/png;base64,AAAA") |}]
                {| comment_body :=
                     Some (Index.composeBody Common.DEFAULT_CAPTION
                             "data:image/png;base64,AAAA") |})
      as (_ & Hposted & Hreturn).
    + right; left; reflexivity.
    + happened.
    + reflexivity.
    + left; reflexivity.
    + reflexivity.
    + split; [exact Hposted | exact Hreturn].
Defined.
End Examples.

(* ================================================================== *)
(** * Before the first request *)
(* ================================================================== *)

Section AlwaysRuns.
Context {JN : JsNumber}.

Lemma always_bind {A B : Type} (P : Req -> Prop) (p : prog A)
    (f : A -> prog B) :
  always P p -> (forall a, always P (f a)) -> always P (bind p f).
Proof.
  induction p as [a | m | c | r k IH]; cbn; intros Hp Hf; auto.
  destruct Hp as [Hr Hk]. split; auto.
Qed.

Lemma always_try_catch {A : Type} (P : Req -> Prop) (p : prog A)
    (h : string -> prog A) :
  always P p -> (forall m, always P (h m)) -> always P (try_catch p h).
Proof.
  induction p as [a | m | c | r k IH]; cbn; intros Hp Hf; auto.
  destruct Hp as [Hr Hk]. split; auto.
Qed.

Lemma always_run {A : Type} (P : Req -> Prop) (W : World) (p : prog A) :
  always P p ->
  forall s, Forall (fun e => P (request e)) (events_of (run W p s)).
Proof.
  induction p as [a | m | c | r k IH]; cbn; intros Hp s; try constructor.
  destruct Hp as [Hr Hk].
  destruct (answer W r s) as [x s1].
  specialize (IH x (Hk x) s1).
  destruct (run W (k x) s1) as [[events out] s2]. cbn in *.
  constructor; auto.
Qed.

Lemma pipeline_app (a b : list Event) :
  pipeline (a ++ b) = (pipeline a ++ pipeline b)%list.
Proof. unfold pipeline. now rewrite calls_app, filter_app. Qed.

Lemma local_pipeline (events : list Event) :
  Forall local events -> pipeline events = [].
Proof.
  unfold pipeline, calls.
  induction 1 as [| e events He _ IH]; cbn; [reflexivity |].
  unfold local in He. now rewrite He.
Qed.

Lemma staged_app (a b : list Event) :
  staged (a ++ b) = (staged a ++ staged b)%list.
Proof. unfold staged. now rewrite calls_app, map_app, filter_app. Qed.

Lemma preliminary_staged (events : list Event) :
  Forall (fun e => preliminary (request e) = true) events ->
  staged events = [].
Proof.
  unfold staged, calls.
  induction 1 as [| e events He _ IH]; cbn; [reflexivity |].
  destruct (request e) as [| | | | | | |[]]; try discriminate; cbn; exact IH.
Qed.

Lemma preliminary_calls (events : list Event) (r : Req) :
  Forall (fun e => preliminary (request e) = true) events ->
  In r (calls events) -> preliminary r = true.
Proof.
  intros Hl Hin. unfold calls in Hin. apply in_map_iff in Hin.
  destruct Hin as (e & <- & He). rewrite Forall_forall in Hl.
  exact (Hl e He).
Qed.

Lemma last_app_cons {A : Type} (l : list A) (x : A) (m : list A) (d : A) :
  last (l ++ x :: m) d = last (x :: m) d.
Proof.
  induction l as [| y l IH]; [reflexivity |].
  cbn [app]. rewrite <- IH. cbn [last].
  destruct (l ++ x :: m)%list eqn:E; [now destruct l | reflexivity].
Qed.

Lemma last_call_app (a : list Event) (e : Event) (b : list Event) :
  last_call ((a ++ e :: b)%list) = last_call (e :: b).
Proof.
  unfold last_call. rewrite calls_app, map_app. apply last_app_cons.
Qed.

End AlwaysRuns.

(** One step of the resolution of the context. *)
Ltac resolve_step :=
  first
    [ exec_step
    | match goal with
      | |- context [bind (Common.parseRepo ?r) _] =>
          let E := fresh "Hrepo" in
          destruct (parseRepo_total r) as [[? E] | E]; rewrite E
      end ].

Section Resolution.
Context {JN : JsNumber} {JP : JsonParser}.

Lemma definite_truthy (v : option string) :
  Js.truthy v = true -> Common.definite v = Some (Js.show v).
Proof.
  intros H. unfold Common.definite. rewrite H. now apply truthy_show.
Qed.

Lemma definite_falsy (v : option string) :
  Js.truthy v = false -> Common.definite v = None.
Proof. intros H. unfold Common.definite. now rewrite H. Qed.

Lemma definite_env (v : option string) (s : string) :
  Common.definite v = Some s -> v = Some s.
Proof. intros H. now apply definite_some in H. Qed.

(** Before its first request [main] reads at most the file of the event
    and writes at most to the error stream. *)
Lemma resolveContext_preliminary env args :
  always (fun r => preliminary r = true) (Common.resolveContext env args).
Proof.
  unfold Common.resolveContext, Common.getEnv, Common.getEventPayload,
    Common.parseRepo, Common.read, Common.render, await, call.
  repeat first
    [ progress cbn [always bind try_catch preliminary]
    | apply always_bind
    | apply always_try_catch
    | split
    | intro
    | reflexivity
    | exact I
    | match goal with
      | |- always _ (match ?x with _ => _ end) => destruct x
      end ].
Qed.

Lemma resolveContext_resolved env args (W : World) (s : state W) ctx :
  outcome_of (run W (Common.resolveContext env args) s)
  = Returned (Some ctx) ->
  Common.definite (env "GITHUB_TOKEN") = Some (Common.githubToken ctx) /\
  Common.definite (env "OPENAI_API_KEY") = Some (Common.openaiKey ctx) /\
  repository env args (Common.repoId ctx) /\
  Common.apiBase ctx
  = API_ROOT ++ owner (Common.repoId ctx) ++ "/"
    ++ name (Common.repoId ctx) /\
  (exists number,
      truthy (Some number) = true /\
      toString number = Some (Common.prNumber ctx) /\
      (truthy (Common.or_value (arg_pr args) (arg_pr_number args)) = true ->
       Common.or_value (arg_pr args) (arg_pr_number args) = Some number)).
Proof.
  unfold Common.resolveContext, Common.getEnv, Common.getEventPayload,
    Common.read, Common.render, repository.
  repeat resolve_step.
  all: intros H; try discriminate.
  all: injection H as <-.
  all: cbn [Common.githubToken Common.openaiKey Common.repoId
            Common.prNumber Common.apiBase].
  all: split; [reflexivity |]; split; [reflexivity |].
  all: split; [eexists; split; [reflexivity | eassumption] |].
  all: split; [reflexivity |].
  all: rewrite ?andb_true_iff, ?andb_false_iff, ?negb_true_iff,
         ?negb_false_iff in *.
  all: match goal with H : toString ?n = Some _ |- _ => exists n end.
  all: split; [assumption |]; split; [assumption |].
  all: intros Ht; first [reflexivity | destruct Heqb1; congruence].
Qed.

Lemma resolveContext_never_returns_nothing env args (W : World)
    (s : state W) :
  outcome_of (run W (Common.resolveContext env args) s) <> Returned None.
Proof.
  unfold Common.resolveContext, Common.getEnv, Common.getEventPayload,
    Common.read, Common.render.
  repeat resolve_step.
  all: try discriminate.
  all: unfold Common.definite in *.
  all: rewrite ?andb_true_r, ?negb_false_iff in *.
  all: exfalso.
  all: match goal with
       | H : Js.truthy ?v = true,
         H2 : (if Js.truthy ?v then ?v else None) = None |- _ =>
           rewrite H in H2; rewrite H2 in H; discriminate
       end.
Qed.

(** When the resolution of the context ends the process, the code is 1
    and the last thing done is a line on the error stream. *)
Lemma resolveContext_exit env args (W : World) (s : state W) c :
  outcome_of (run W (Common.resolveContext env args) s) = Exited c ->
  c = 1%Z /\
  exists events text,
    events_of (run W (Common.resolveContext env args) s)
    = (events ++ [Ev (Console Error [Text text]) tt])%list.
Proof.
  unfold Common.resolveContext, Common.getEnv, Common.getEventPayload,
    Common.read, Common.render.
  repeat resolve_step.
  all: intros H; try discriminate.
  all: injection H as <-.
  all: split; [reflexivity |].
  all: first
         [ now (exists []; eexists; reflexivity)
         | now (eexists [_]; eexists; reflexivity)
         | now (eexists [_; _]; eexists; reflexivity) ].
Qed.

End Resolution.

Section Early.
Context {JN : JsNumber} {JP : JsonParser}.

(** X1.  When [GITHUB_TOKEN] is missing or empty, or when it is set and
    [OPENAI_API_KEY] is missing or empty, either entry point writes one
    line that names the variable on the error stream, makes no other call
    and exits with code 1. *)
Theorem missing_secret_exits_at_once env args p (W : World) (s : state W)
    variable :
  In p (entry_points env args) ->
  (Js.truthy (env "GITHUB_TOKEN") = false /\ variable = "GITHUB_TOKEN") \/
  (Js.truthy (env "GITHUB_TOKEN") = true /\
   Js.truthy (env "OPENAI_API_KEY") = false /\ variable = "OPENAI_API_KEY") ->
  calls (events_of (run W p s))
  = [Console Error
       [Text ("[patch-picasso] Missing required env: " ++ variable)]] /\
  outcome_of (run W p s) = Exited 1%Z.
Proof.
  intros Hp H.
  destruct Hp as [<- | [<- | []]].
  - unfold Index.program, Common.entry, Index.main, Common.resolveContext,
      Common.getEnv.
    destruct H as [[H ->] | (H1 & H2 & ->)].
    + rewrite H. cbn [negb andb]. repeat exec_step. split; reflexivity.
    + rewrite H1, H2. cbn [negb andb]. repeat exec_step.
      split; reflexivity.
  - unfold Upload.program, Common.entry, Upload.main, Common.resolveContext,
      Common.getEnv.
    destruct H as [[H ->] | (H1 & H2 & ->)].
    + rewrite H. cbn [negb andb]. repeat exec_step. split; reflexivity.
    + rewrite H1, H2. cbn [negb andb]. repeat exec_step.
      split; reflexivity.
Qed.

(** X2.  [getEventPayload] always returns.  Without [GITHUB_EVENT_PATH]
    it makes no call and returns [undefined].  With it, it reads that one
    file and returns what [JSON.parse] makes of the content; a rejected
    read and a syntax error both give [undefined]. *)
Theorem event_payload_is_optional env (W : World) (s : state W) :
  exists payload,
    outcome_of (run W (Common.getEventPayload env) s) = Returned payload /\
    (Common.definite (env "GITHUB_EVENT_PATH") = None ->
     events_of (run W (Common.getEventPayload env) s) = [] /\ payload = None) /\
    (forall path,
        Common.definite (env "GITHUB_EVENT_PATH") = Some path ->
        exists answer,
          events_of (run W (Common.getEventPayload env) s)
          = [Ev (ReadFile path) answer] /\
          payload = match answer with
                    | Resolved content => JSON_parse content
                    | Rejected _ => None
                    end).
Proof.
  unfold Common.getEventPayload.
  destruct (Common.definite (env "GITHUB_EVENT_PATH")) as [path |].
  - repeat exec_step.
    all: eexists; split; [reflexivity |]; split; [discriminate |].
    all: intros path' [= <-]; eexists; split; [reflexivity |].
    all: cbn; try rewrite Heqo; reflexivity.
  - cbn. exists None. split; [reflexivity |]. split; [auto |]. discriminate.
Qed.

(** X3.  With both secrets, and with neither [--repo] nor
    [GITHUB_REPOSITORY], either entry point says on the error stream that
    the repository is missing and exits with code 1 without any remote
    call. *)
Theorem missing_repository_exits_before_any_request env args p (W : World)
    (s : state W) :
  In p (entry_points env args) ->
  Js.truthy (env "GITHUB_TOKEN") = true ->
  Js.truthy (env "OPENAI_API_KEY") = true ->
  Js.truthy (arg_repo args) = false ->
  Js.truthy (env "GITHUB_REPOSITORY") = false ->
  outcome_of (run W p s) = Exited 1%Z /\
  existsb is_remote (calls (events_of (run W p s))) = false /\
  In (Console Error
        [Text "[patch-picasso] Missing repo. Pass --repo owner/repo or set GITHUB_REPOSITORY."])
    (calls (events_of (run W p s))).
Proof.
  intros Hp Ht Hk Ha He.
  assert (Hr : Common.definite
                 (Js.or_else (arg_repo args) (env "GITHUB_REPOSITORY"))
               = None).
  { unfold Common.definite, Js.or_else. rewrite Ha, He. reflexivity. }
  destruct Hp as [<- | [<- | []]].
  - unfold Index.program, Common.entry, Index.main, Common.resolveContext,
      Common.getEnv, Common.getEventPayload.
    rewrite Ht, Hk. cbn [negb andb bind].
    rewrite (definite_truthy _ Ht), (definite_truthy _ Hk), Hr.
    repeat exec_step.
    all: repeat split; try reflexivity.
    all: cbn [calls map request In]; auto 10.
  - unfold Upload.program, Common.entry, Upload.main, Common.resolveContext,
      Common.getEnv, Common.getEventPayload.
    rewrite Ht, Hk. cbn [negb andb bind].
    rewrite (definite_truthy _ Ht), (definite_truthy _ Hk), Hr.
    repeat exec_step.
    all: repeat split; try reflexivity.
    all: cbn [calls map request In]; auto 10.
Qed.
End Early.

(** All the runs of an entry point, with what is known of the context
    they resolved. *)
Ltac enter_resolved W env args s ev0 Hq Hpre Hres Hnone Hexit :=
  pose proof (resolveContext_resolved env args W s) as Hres;
  pose proof (resolveContext_never_returns_nothing env args W s) as Hnone;
  pose proof (resolveContext_exit env args W s) as Hexit;
  pose proof (always_run _ W _ (resolveContext_preliminary env args) s)
    as Hpre;
  enter_program W env args s ev0 Hq;
  cbn [events_of outcome_of fst snd] in Hpre, Hres, Hnone, Hexit;
  try (exfalso; apply Hnone; reflexivity).

Section FirstRequest.
Context {JN : JsNumber} {JP : JsonParser}.

Lemma first_request env args p (W : World) (s : state W) ctx :
  In p (entry_points env args) ->
  outcome_of (run W (Common.resolveContext env args) s)
  = Returned (Some ctx) ->
  hd_error (pipeline (events_of (run W p s)))
  = Some (HttpGet SPull
            (Common.apiBase ctx ++ "/pulls/" ++ Common.prNumber ctx)
            (Common.githubToken ctx)).
Proof.
  intros Hp.
  destruct Hp as [<- | [<- | []]].
  - unfold Index.program, Common.entry, Index.main.
    enter_program W env args s ev0 Hq.
    all: cbn [outcome_of fst snd]; intros H; try discriminate.
    all: injection H as <-.
    all: rewrite pipeline_app, (local_pipeline _ Hq); reflexivity.
  - unfold Upload.program, Common.entry, Upload.main.
    enter_program W env args s ev0 Hq.
    all: cbn [outcome_of fst snd]; intros H; try discriminate.
    all: injection H as <-.
    all: rewrite pipeline_app, (local_pipeline _ Hq); reflexivity.
Qed.

End FirstRequest.

Section Number.
Context {JN : JsNumber} {JP : JsonParser}.

Lemma get_object (v : json) (key : string) (field : json) :
  get v key = Some (Some field) -> truthy (Some v) = true.
Proof. destruct v; cbn; congruence. Qed.

(** The context that a run with a number among its flags resolves. *)
Lemma resolveContext_flag env args (W : World) (s : state W)
    repo id n printed :
  Js.truthy (env "GITHUB_TOKEN") = true ->
  Js.truthy (env "OPENAI_API_KEY") = true ->
  Common.definite (Js.or_else (arg_repo args) (env "GITHUB_REPOSITORY"))
  = Some repo ->
  Common.parseRepo repo = Ret id ->
  Common.or_value (arg_pr args) (arg_pr_number args) = Some n ->
  truthy (Some n) = true ->
  toString n = Some printed ->
  outcome_of (run W (Common.resolveContext env args) s)
  = Returned
      (Some {| Common.githubToken := Js.show (env "GITHUB_TOKEN");
               Common.openaiKey := Js.show (env "OPENAI_API_KEY");
               Common.repoId := id;
               Common.prNumber := printed;
               Common.apiBase := API_ROOT ++ owner id ++ "/" ++ name id |}).
Proof.
  intros Ht Hk Hrepo Hparse Hflag Htr Hs.
  unfold Common.resolveContext, Common.getEnv, Common.getEventPayload,
    Common.render.
  rewrite Ht, Hk. cbn [negb andb bind].
  rewrite (definite_truthy _ Ht), (definite_truthy _ Hk), Hrepo, Hparse,
    Hflag, Htr.
  cbn [negb andb].
  repeat first [rewrite Htr | rewrite Hs | progress cbn [negb andb] | exec_step].
  all: reflexivity.
Qed.

(** The context that a run without a number among its flags resolves on
    a [pull_request] event. *)
Lemma resolveContext_event env args (W : World) (s : state W)
    repo id path content payload pull n printed :
  Js.truthy (env "GITHUB_TOKEN") = true ->
  Js.truthy (env "OPENAI_API_KEY") = true ->
  Common.definite (Js.or_else (arg_repo args) (env "GITHUB_REPOSITORY"))
  = Some repo ->
  Common.parseRepo repo = Ret id ->
  truthy (Common.or_value (arg_pr args) (arg_pr_number args)) = false ->
  Common.definite (env "GITHUB_EVENT_PATH") = Some path ->
  fst (answer W (ReadFile path) s) = Resolved content ->
  JSON_parse content = Some payload ->
  get payload "pull_request" = Some (Some pull) ->
  get pull "number" = Some (Some n) ->
  truthy (Some n) = true ->
  toString n = Some printed ->
  outcome_of (run W (Common.resolveContext env args) s)
  = Returned
      (Some {| Common.githubToken := Js.show (env "GITHUB_TOKEN");
               Common.openaiKey := Js.show (env "OPENAI_API_KEY");
               Common.repoId := id;
               Common.prNumber := printed;
               Common.apiBase := API_ROOT ++ owner id ++ "/" ++ name id |}).
Proof.
  intros Ht Hk Hrepo Hparse Hflag Hpath Hfile Hjson Hpull Hnum Htr Hs.
  pose proof (get_object _ _ _ Hpull) as Hev.
  pose proof (get_object _ _ _ Hnum) as Hpr.
  unfold Common.resolveContext, Common.getEnv, Common.getEventPayload,
    Common.render, Common.read.
  rewrite Ht, Hk. cbn [negb andb bind].
  rewrite (definite_truthy _ Ht), (definite_truthy _ Hk), Hrepo, Hparse,
    Hflag, Hpath.
  cbn [run bind try_catch call await events_of outcome_of fst snd].
  destruct (answer W (ReadFile path) s) as [x s1]. cbn [fst] in Hfile.
  subst x.
  repeat first
    [ rewrite Hjson | rewrite Hev | rewrite Hpull | rewrite Hpr
    | rewrite Hnum | rewrite Htr | rewrite Hs
    | progress cbn [run bind try_catch call await events_of outcome_of
                    fst snd negb andb] ].
  reflexivity.
Qed.

(** X4.  With both secrets and a repository string that parses, without
    a number among the flags and without [GITHUB_EVENT_PATH], the one call
    of either entry point is the line on the error stream that says the
    number is missing, and the exit code is 1. *)
Theorem missing_number_exits_before_any_request env args p (W : World)
    (s : state W) repo id :
  In p (entry_points env args) ->
  Js.truthy (env "GITHUB_TOKEN") = true ->
  Js.truthy (env "OPENAI_API_KEY") = true ->
  Common.definite (Js.or_else (arg_repo args) (env "GITHUB_REPOSITORY"))
  = Some repo ->
  Common.parseRepo repo = Ret id ->
  truthy (Common.or_value (arg_pr args) (arg_pr_number args)) = false ->
  Js.truthy (env "GITHUB_EVENT_PATH") = false ->
  calls (events_of (run W p s))
  = [Console Error
       [Text "[patch-picasso] Missing PR number. Pass --pr or ensure this runs on a pull_request event."]] /\
  outcome_of (run W p s) = Exited 1%Z.
Proof.
  intros Hp Ht Hk Hrepo Hparse Hflag Hpath.
  destruct Hp as [<- | [<- | []]].
  - unfold Index.program, Common.entry, Index.main, Common.resolveContext,
      Common.getEnv, Common.getEventPayload.
    rewrite Ht, Hk. cbn [negb andb bind].
    rewrite (definite_truthy _ Ht), (definite_truthy _ Hk), Hrepo, Hparse,
      Hflag, (definite_falsy _ Hpath).
    cbn [bind try_catch truthy negb andb]. rewrite Hflag.
    cbn [negb bind try_catch run call]. repeat exec_step.
    split; reflexivity.
  - unfold Upload.program, Common.entry, Upload.main, Common.resolveContext,
      Common.getEnv, Common.getEventPayload.
    rewrite Ht, Hk. cbn [negb andb bind].
    rewrite (definite_truthy _ Ht), (definite_truthy _ Hk), Hrepo, Hparse,
      Hflag, (definite_falsy _ Hpath).
    cbn [bind try_catch truthy negb andb]. rewrite Hflag.
    cbn [negb bind try_catch run call]. repeat exec_step.
    split; reflexivity.
Qed.

(** X5.  When [--pr], or else [--pr-number], is truthy, the first remote
    call of either entry point reads the pull request of that number, in
    the repository that [parseRepo] made of the repository string, with
    [GITHUB_TOKEN]: the file of the event has no say. *)
Theorem flag_number_wins env args p (W : World) (s : state W)
    repo id n printed :
  In p (entry_points env args) ->
  Js.truthy (env "GITHUB_TOKEN") = true ->
  Js.truthy (env "OPENAI_API_KEY") = true ->
  Common.definite (Js.or_else (arg_repo args) (env "GITHUB_REPOSITORY"))
  = Some repo ->
  Common.parseRepo repo = Ret id ->
  Common.or_value (arg_pr args) (arg_pr_number args) = Some n ->
  truthy (Some n) = true ->
  toString n = Some printed ->
  hd_error (pipeline (events_of (run W p s)))
  = Some (HttpGet SPull
            ((API_ROOT ++ owner id ++ "/" ++ name id) ++ "/pulls/" ++ printed)
            (Js.show (env "GITHUB_TOKEN"))).
Proof.
  intros Hp Ht Hk Hrepo Hparse Hflag Htr Hs.
  rewrite (first_request env args p W s _ Hp
             (resolveContext_flag env args W s repo id n printed
                Ht Hk Hrepo Hparse Hflag Htr Hs)).
  reflexivity.
Qed.

(** X6.  Without a truthy number among the flags, when the file named by
    [GITHUB_EVENT_PATH] is read and parses to a value whose
    [pull_request.number] is truthy, the first remote call of either entry
    point reads the pull request of that number. *)
Theorem event_number_is_the_fallback env args p (W : World) (s : state W)
    repo id path content payload pull n printed :
  In p (entry_points env args) ->
  Js.truthy (env "GITHUB_TOKEN") = true ->
  Js.truthy (env "OPENAI_API_KEY") = true ->
  Common.definite (Js.or_else (arg_repo args) (env "GITHUB_REPOSITORY"))
  = Some repo ->
  Common.parseRepo repo = Ret id ->
  truthy (Common.or_value (arg_pr args) (arg_pr_number args)) = false ->
  Common.definite (env "GITHUB_EVENT_PATH") = Some path ->
  fst (answer W (ReadFile path) s) = Resolved content ->
  JSON_parse content = Some payload ->
  get payload "pull_request" = Some (Some pull) ->
  get pull "number" = Some (Some n) ->
  truthy (Some n) = true ->
  toString n = Some printed ->
  hd_error (pipeline (events_of (run W p s)))
  = Some (HttpGet SPull
            ((API_ROOT ++ owner id ++ "/" ++ name id) ++ "/pulls/" ++ printed)
            (Js.show (env "GITHUB_TOKEN"))).
Proof.
  intros Hp Ht Hk Hrepo Hparse Hflag Hpath Hfile Hjson Hpull Hnum Htr Hs.
  rewrite (first_request env args p W s _ Hp
             (resolveContext_event env args W s repo id path content payload
                pull n printed
                Ht Hk Hrepo Hparse Hflag Hpath Hfile Hjson Hpull Hnum Htr Hs)).
  reflexivity.
Qed.

End Number.

(* ================================================================== *)
(** * The shape of a run *)
(* ================================================================== *)

Section Requests.
Context {JN : JsNumber} {JP : JsonParser}.

Lemma prefix_base (base rest : string) :
  String.prefix (base ++ "/") (base ++ "/" ++ rest) = true.
Proof. rewrite <- append_assoc. apply prefix_append. Qed.

Lemma under_base (o n rest : string) :
  String.prefix (API_ROOT ++ o ++ "/" ++ n ++ "/")
    ((API_ROOT ++ o ++ "/" ++ n) ++ "/" ++ rest) = true.
Proof.
  replace (API_ROOT ++ o ++ "/" ++ n ++ "/")
    with ((API_ROOT ++ o ++ "/" ++ n) ++ "/").
  - apply prefix_base.
  - now rewrite !append_assoc.
Qed.

Lemma addressed_local env args r : is_remote r = false -> addressed env args r.
Proof. destruct r; cbn; try discriminate; intros _; exact I. Qed.

(** X7.  Every call of a run of either entry point is addressed: a
    request to GitHub carries [GITHUB_TOKEN] and a URL under
    [https://api.github.com/repos/<owner>/<name>/] for the owner and the
    name that [parseRepo] made of [--repo] or else [GITHUB_REPOSITORY];
    the image service gets [OPENAI_API_KEY], the model [gpt-image-1] and
    the size [1024x1024]; the text service gets the model [gpt-4o-mini],
    the fixed system prompt and 400 tokens. *)
Theorem every_call_is_addressed env args p (W : World) (s : state W) r :
  In p (entry_points env args) ->
  In r (calls (events_of (run W p s))) ->
  addressed env args r.
Proof.
  intros Hp.
  destruct Hp as [<- | [<- | []]].
  - unfold Index.program, Common.entry, Index.main.
    enter_resolved W env args s ev0 Hq Hpre Hres Hnone Hexit.
    all: intros Hin.
    all: rewrite ?calls_app in Hin.
    all: try apply in_app_or in Hin.
    all: try (destruct Hin as [Hin | Hin]).
    all: try (apply addressed_local; exact (local_calls _ _ Hq Hin)).
    all: cbn [calls map request In] in Hin.
    all: repeat (destruct Hin as [Hin | Hin]).
    all: try contradiction.
    all: subst r; cbn [addressed].
    all: try exact I.
    all: destruct (Hres _ eq_refl) as (Ht & Hk & Hrepo & Hbase & _).
    all: apply definite_env in Ht, Hk.
    all: try (split; [assumption | split; reflexivity]).
    all: try (repeat split; reflexivity).
    all: split; [assumption |].
    all: exists (Common.repoId ctx); split; [assumption |].
    all: unfold Common.comments_url; rewrite Hbase.
    all: apply under_base.
  - unfold Upload.program, Common.entry, Upload.main.
    enter_resolved W env args s ev0 Hq Hpre Hres Hnone Hexit.
    all: intros Hin.
    all: rewrite ?calls_app in Hin.
    all: try apply in_app_or in Hin.
    all: try (destruct Hin as [Hin | Hin]).
    all: try (apply addressed_local; exact (local_calls _ _ Hq Hin)).
    all: cbn [calls map request In] in Hin.
    all: repeat (destruct Hin as [Hin | Hin]).
    all: try contradiction.
    all: subst r; cbn [addressed].
    all: try exact I.
    all: destruct (Hres _ eq_refl) as (Ht & Hk & Hrepo & Hbase & _).
    all: apply definite_env in Ht, Hk.
    all: try (split; [assumption | split; reflexivity]).
    all: try (repeat split; reflexivity).
    all: split; [assumption |].
    all: exists (Common.repoId ctx); split; [assumption |].
    all: unfold Common.comments_url; rewrite Hbase.
    all: apply under_base.
Qed.

End Requests.

Section Shape.
Context {JN : JsNumber} {JP : JsonParser}.

Lemma preliminary_existsb (P : Req -> bool) (events : list Event) :
  (forall r, P r = true -> preliminary r = false) ->
  Forall (fun e => preliminary (request e) = true) events ->
  existsb P (calls events) = false.
Proof.
  intros HP. unfold calls.
  induction 1 as [| e events He _ IH]; cbn; [reflexivity |].
  rewrite IH, orb_false_r. destruct (P (request e)) eqn:E; [| reflexivity].
  apply HP in E. congruence.
Qed.

Lemma is_clock_preliminary r : is_clock r = true -> preliminary r = false.
Proof. destruct r; cbn; congruence. Qed.

Lemma is_put_preliminary r : is_put r = true -> preliminary r = false.
Proof. destruct r; cbn; congruence. Qed.

(** X8.  In every run of either entry point the calls that [stage]
    places come in the order of the text of [main] and each at most once:
    pull request, files, comments, text service, image service, clock,
    write, post.  Nothing is retried and nothing is done out of order. *)
Theorem calls_follow_the_text_of_main env args p (W : World) (s : state W) :
  In p (entry_points env args) ->
  StronglySorted lt (staged (events_of (run W p s))).
Proof.
  intros Hp.
  destruct Hp as [<- | [<- | []]].
  - unfold Index.program, Common.entry, Index.main.
    enter_resolved W env args s ev0 Hq Hpre Hres Hnone Hexit.
    all: rewrite ?staged_app, ?(preliminary_staged _ Hpre).
    all: cbn [staged calls map request stage filter negb Nat.eqb app].
    all: repeat constructor.
  - unfold Upload.program, Common.entry, Upload.main.
    enter_resolved W env args s ev0 Hq Hpre Hres Hnone Hexit.
    all: rewrite ?staged_app, ?(preliminary_staged _ Hpre).
    all: cbn [staged calls map request stage filter negb Nat.eqb app].
    all: repeat constructor.
Qed.

(** X9.  [src/index.ts] never writes to the repository and never reads
    the clock. *)
Theorem index_never_writes env args (W : World) (s : state W) :
  existsb is_put (calls (events_of (run W (Index.program env args) s)))
  = false /\
  existsb is_clock (calls (events_of (run W (Index.program env args) s)))
  = false.
Proof.
  unfold Index.program, Common.entry, Index.main.
  enter_resolved W env args s ev0 Hq Hpre Hres Hnone Hexit.
  all: rewrite ?calls_app, ?existsb_app,
         ?(preliminary_existsb _ _ is_put_preliminary Hpre),
         ?(preliminary_existsb _ _ is_clock_preliminary Hpre).
  all: split; reflexivity.
Qed.

(** X10.  A run of either entry point ends in one of two ways: it
    returns, and its last call is a line on the standard output; or it
    exits with code 1, and its last call is a line on the error stream.
    No error leaves [main().catch]. *)
Theorem every_end_is_announced env args p (W : World) (s : state W) :
  In p (entry_points env args) ->
  (outcome_of (run W p s) = Returned tt /\
   exists text,
     last_call (events_of (run W p s)) = Some (Console Log [Text text])) \/
  (outcome_of (run W p s) = Exited 1%Z /\
   exists text rest,
     last_call (events_of (run W p s))
     = Some (Console Error (Text text :: rest))).
Proof.
  intros Hp.
  destruct Hp as [<- | [<- | []]].
  - unfold Index.program, Common.entry, Index.main.
    enter_resolved W env args s ev0 Hq Hpre Hres Hnone Hexit.
    all: try (destruct (Hexit _ eq_refl) as (-> & evs & text & ->)).
    all: rewrite ?last_call_app.
    all: first
           [ left; split; [reflexivity | eexists; reflexivity]
           | right; split; [reflexivity | eexists; eexists; reflexivity] ].
  - unfold Upload.program, Common.entry, Upload.main.
    enter_resolved W env args s ev0 Hq Hpre Hres Hnone Hexit.
    all: try (destruct (Hexit _ eq_refl) as (-> & evs & text & ->)).
    all: rewrite ?last_call_app.
    all: first
           [ left; split; [reflexivity | eexists; reflexivity]
           | right; split; [reflexivity | eexists; eexists; reflexivity] ].
Qed.

(** X11.  A run of either entry point posts at most one comment, and it
    logs [Comment posted.] exactly when it returns after having posted
    one. *)
Theorem one_comment_at_most env args p (W : World) (s : state W) :
  In p (entry_points env args) ->
  length (posted (events_of (run W p s))) <= 1 /\
  (In (Console Log [Text "[patch-picasso] Comment posted."])
     (calls (events_of (run W p s))) <->
   outcome_of (run W p s) = Returned tt /\
   length (posted (events_of (run W p s))) = 1).
Proof.
  intros Hp.
  destruct Hp as [<- | [<- | []]].
  - unfold Index.program, Common.entry, Index.main.
    enter_resolved W env args s ev0 Hq Hpre Hres Hnone Hexit.
    all: rewrite ?posted_app, ?(local_posted _ Hq).
    all: cbn [posted flat_map request posted_comment app length
              outcome_of fst snd].
    all: split; [lia |].
    all: split;
      [ intros Hin
      | intros [Ho Hl]; first [discriminate | in_list] ].
    all: rewrite ?calls_app in Hin.
    all: try apply in_app_or in Hin.
    all: try (destruct Hin as [Hin | Hin]).
    all: try (apply (preliminary_calls _ _ Hpre) in Hin; discriminate).
    all: cbn [calls map request In] in Hin.
    all: repeat (destruct Hin as [Hin | Hin]).
    all: try discriminate; try contradiction.
    all: split; reflexivity.
  - unfold Upload.program, Common.entry, Upload.main.
    enter_resolved W env args s ev0 Hq Hpre Hres Hnone Hexit.
    all: rewrite ?posted_app, ?(local_posted _ Hq).
    all: cbn [posted flat_map request posted_comment app length
              outcome_of fst snd].
    all: split; [lia |].
    all: split;
      [ intros Hin
      | intros [Ho Hl]; first [discriminate | in_list] ].
    all: rewrite ?calls_app in Hin.
    all: try apply in_app_or in Hin.
    all: try (destruct Hin as [Hin | Hin]).
    all: try (apply (preliminary_calls _ _ Hpre) in Hin; discriminate).
    all: cbn [calls map request In] in Hin.
    all: repeat (destruct Hin as [Hin | Hin]).
    all: try discriminate; try contradiction.
    all: split; reflexivity.
Qed.

End Shape.

(** Finds which event of a run a given event is. *)
Ltac which_event Hin Hq Hr :=
  rewrite <- ?app_assoc in Hin;
  try apply in_app_or in Hin;
  try (destruct Hin as [Hin | Hin]);
  try (exfalso; rewrite Forall_forall in Hq; specialize (Hq _ Hin);
       unfold local in Hq; congruence);
  cbn [In app] in Hin;
  repeat (destruct Hin as [Hin | Hin]);
  try contradiction; subst.

Section Failures.
Context {JN : JsNumber} {JP : JsonParser}.

Lemma composeBody_falsy caption imageUrl :
  Js.truthy imageUrl = false ->
  Upload.composeBody caption imageUrl = Upload.composeBody caption None.
Proof. unfold Upload.composeBody. intros ->. reflexivity. Qed.

(** X12.  When a call of a run of either entry point to GitHub, other
    than the write of the upload, or to the text or image service fails,
    the run exits with code 1, and its last call writes
    [[patch-picasso] Failed:] and the message of the error on the error
    stream: for an answer that is not OK, the message that [fetchJson] or
    [postJson] builds from the URL, the status and the body. *)
Theorem failed_request_is_fatal env args p (W : World) (s : state W) e
    message :
  In p (entry_points env args) ->
  In e (events_of (run W p s)) ->
  is_remote (request e) = true ->
  is_put (request e) = false ->
  rejection e = Some message ->
  outcome_of (run W p s) = Exited 1%Z /\
  last_call (events_of (run W p s))
  = Some (Console Error
            [Text "[patch-picasso] Failed:";
             Common.message_or_error message]).
Proof.
  intros Hp.
  destruct Hp as [<- | [<- | []]].
  - unfold Index.program, Common.entry, Index.main.
    enter_program W env args s ev0 Hq.
    all: intros Hin Hr Hput Hf.
    all: which_event Hin Hq Hr.
    all: cbn [rejection request is_put] in Hf, Hput; try discriminate.
    all: injection Hf as <-.
    all: rewrite ?last_call_app.
    all: split; reflexivity.
  - unfold Upload.program, Common.entry, Upload.main.
    enter_program W env args s ev0 Hq.
    all: intros Hin Hr Hput Hf.
    all: which_event Hin Hq Hr.
    all: cbn [rejection request is_put] in Hf, Hput; try discriminate.
    all: injection Hf as <-.
    all: rewrite ?last_call_app.
    all: split; reflexivity.
Qed.

(** X13.  In the entry point that uploads to the head branch, a write
    that fails is not fatal: the run warns with the message of the error,
    and goes on to post the comment without an image URL. *)
Theorem failed_upload_is_not_fatal env args (W : World) (s : state W) e
    message :
  In e (events_of (run W (Upload.program env args) s)) ->
  is_put (request e) = true ->
  rejection e = Some message ->
  In (Console Warn
        [Text "[patch-picasso] Failed to upload image to repo:";
         Common.message_or_error message])
    (calls (events_of (run W (Upload.program env args) s))) /\
  (exists caption,
      posted (events_of (run W (Upload.program env args) s))
      = [Upload.composeBody caption None]).
Proof.
  unfold Upload.program, Common.entry, Upload.main.
  enter_program W env args s ev0 Hq.
  all: intros Hin Hput Hf.
  all: pose proof (is_put_remote _ Hput) as Hr.
  all: which_event Hin Hq Hr.
  all: cbn [rejection request is_put] in Hf, Hput; try discriminate.
  all: injection Hf as <-.
  all: split; [in_list |].
  all: observe Hq.
  all: rewrite Bool.negb_true_iff in *.
  all: match goal with
       | H : Js.truthy ?u = false |- context [Upload.composeBody ?c ?u] =>
           rewrite (composeBody_falsy c u H)
       end.
  all: eexists; reflexivity.
Qed.

End Failures.

Section Hosted.
Context {JN : JsNumber} {JP : JsonParser}.

(** X14.  When the image service answers with a hosted URL, either entry
    point writes nothing to the repository, does not read the clock, and
    posts one comment composed with that URL. *)
Theorem hosted_url_is_used_as_it_is env args p (W : World) (s : state W)
    e image :
  In p (entry_points env args) ->
  In e (events_of (run W p s)) ->
  generated_image e = Some (Resolved image) ->
  Js.truthy (Common.first_url image) = true ->
  existsb is_put (calls (events_of (run W p s))) = false /\
  existsb is_clock (calls (events_of (run W p s))) = false /\
  exists caption,
    posted (events_of (run W p s))
    = [Index.composeBody caption (Js.show (Common.first_url image))] \/
    posted (events_of (run W p s))
    = [Upload.composeBody caption (Common.first_url image)].
Proof.
  intros Hp.
  destruct Hp as [<- | [<- | []]].
  - unfold Index.program, Common.entry, Index.main.
    enter_resolved W env args s ev0 Hq Hpre Hres Hnone Hexit.
    all: intros Hin Hobs Hurl.
    all: locate Hin Hobs Hq generated_image_remote.
    all: injection Hobs as ->.
    all: repeat match goal with
                | H : negb _ = _ |- _ =>
                    rewrite Hurl in H; cbn [negb] in H
                end.
    all: try discriminate.
    all: rewrite ?Hurl; cbn [negb].
    all: rewrite ?calls_app, ?existsb_app,
           ?(preliminary_existsb _ _ is_put_preliminary Hpre),
           ?(preliminary_existsb _ _ is_clock_preliminary Hpre).
    all: observe Hq.
    all: split; [reflexivity |]; split; [reflexivity |].
    all: eexists; left; reflexivity.
  - unfold Upload.program, Common.entry, Upload.main.
    enter_resolved W env args s ev0 Hq Hpre Hres Hnone Hexit.
    all: intros Hin Hobs Hurl.
    all: locate Hin Hobs Hq generated_image_remote.
    all: injection Hobs as ->.
    all: repeat match goal with
                | H : negb _ = _ |- _ =>
                    rewrite Hurl in H; cbn [negb] in H
                end.
    all: try discriminate.
    all: rewrite ?Hurl; cbn [negb].
    all: rewrite ?calls_app, ?existsb_app,
           ?(preliminary_existsb _ _ is_put_preliminary Hpre),
           ?(preliminary_existsb _ _ is_clock_preliminary Hpre).
    all: observe Hq.
    all: split; [reflexivity |]; split; [reflexivity |].
    all: eexists; right; reflexivity.
Qed.

(** X15.  Every write of the entry point that uploads to the head
    branch comes after a pull request that passes the guard of the upload
    and an image answer without hosted URL, and is a PUT with the token of
    the run to [<apiBase>/contents/] followed by the URI-encoded path
    [.github/patch-picasso/<number>-<now>.png], where [now] is what the
    clock answered; its body names the number of the pull request in the
    message, carries the base64 payload of the image answer as content and
    the head branch of the pull request as branch, and has no [sha]. *)
Theorem upload_writes_the_payload_to_the_head_branch env args (W : World)
    (s : state W) r :
  In r (calls (events_of (run W (Upload.program env args) s))) ->
  is_put r = true ->
  exists ctx pr image now,
    outcome_of (run W (Common.resolveContext env args) s)
    = Returned (Some ctx) /\
    (exists e1,
        In e1 (events_of (run W (Upload.program env args) s)) /\
        fetched_pull e1 = Some (ResOk pr)) /\
    (exists e2,
        In e2 (events_of (run W (Upload.program env args) s)) /\
        generated_image e2 = Some (Resolved image)) /\
    (exists e3,
        In e3 (events_of (run W (Upload.program env args) s)) /\
        clock e3 = Some now) /\
    Js.truthy (Common.first_url image) = false /\
    Upload.eligible pr (Common.first_b64 image) = true /\
    r = HttpPut SWritten
          (Common.apiBase ctx ++ "/contents/"
           ++ Js.encodeURIComponent
                (".github/patch-picasso/" ++ Common.prNumber ctx ++ "-"
                 ++ number_toString now ++ ".png"))
          (Common.githubToken ctx)
          (BContents
             ("patch-picasso: add generated image for PR #"
              ++ Common.prNumber ctx)
             (Js.show (Common.first_b64 image))
             (Js.show (head_ref pr))
             None).
Proof.
  unfold Upload.program, Common.entry, Upload.main.
  enter_program W env args s ev0 Hq.
  all: intros Hin Hput.
  all: rewrite ?calls_app in Hin.
  all: try apply in_app_or in Hin.
  all: try (destruct Hin as [Hin | Hin]).
  all: try (apply (local_calls _ _ Hq) in Hin;
            apply is_put_remote in Hput; congruence).
  all: cbn [calls map request In] in Hin.
  all: repeat (destruct Hin as [Hin | Hin]).
  all: try contradiction.
  all: subst r; cbn [is_put] in Hput; try discriminate.
  all: cbn [outcome_of fst snd].
  all: rewrite Bool.negb_true_iff in *.
  all: eexists; eexists; eexists; eexists.
  all: split; [reflexivity |].
  all: split;
    [ match goal with
      | |- context [Ev (HttpGet SPull ?u ?t) (ResOk ?pr)] =>
          exists (Ev (HttpGet SPull u t) (ResOk pr));
          split; [in_list | reflexivity]
      end | ].
  all: split;
    [ match goal with
      | |- context [Ev (ImagesGenerate ?k ?m ?q ?z) (Resolved ?img)] =>
          exists (Ev (ImagesGenerate k m q z) (Resolved img));
          split; [in_list | reflexivity]
      end | ].
  all: split;
    [ match goal with
      | |- context [Ev DateNow ?now] =>
          exists (Ev DateNow now); split; [in_list | reflexivity]
      end | ].
  all: split; [eassumption |].
  all: split; [eassumption |].
  all: reflexivity.
Qed.

End Hosted.

Section Prompt.
Context {JN : JsNumber} {JP : JsonParser}.


End Prompt.

(* ================================================================== *)
(** * The texts of a run *)
(* ================================================================== *)

Section Texts.
Context {JN : JsNumber} {JP : JsonParser}.

Lemma slice0_all (n : nat) (s : string) :
  String.length s <= n -> Js.slice0 n s = s.
Proof.
  revert n. induction s as [| c s IH]; intros [| n] H; cbn in *;
    try reflexivity; [lia |].
  rewrite IH; [reflexivity | lia].
Qed.

(** X17.  When the answer of the text service is JSON whose
    [imagePrompt] and [caption] are falsy (missing, [null], [false], zero
    or empty), the image prompt and the caption are both empty: the
    default caption is for answers that fail to parse, not for answers
    without a caption. *)
Theorem falsy_fields_give_empty_texts structured parsed imagePrompt caption :
  JSON_parse structured = Some parsed ->
  get parsed "imagePrompt" = Some imagePrompt ->
  truthy imagePrompt = false ->
  get parsed "caption" = Some caption ->
  truthy caption = false ->
  Common.parseStructured structured = Ret ("", "").
Proof.
  intros Hp Ha Hfa Hb Hfb.
  unfold Common.parseStructured, Common.field_text, Common.read,
    Common.render, Common.or_value.
  rewrite Hp, Ha, Hb. cbn [bind]. rewrite Hfa, Hfb. reflexivity.
Qed.

(** X18.  When the answer of the text service parses to [null], or to a
    value of which [imagePrompt] or [caption] is truthy and cannot be
    converted to a string, the [catch] takes over for both texts: the
    prompt is the first 800 characters of the answer and the caption is
    the default caption. *)
Theorem unreadable_text_falls_back structured parsed :
  JSON_parse structured = Some parsed ->
  parsed = JNull \/
  (exists key field,
      (key = "imagePrompt" \/ key = "caption") /\
      get parsed key = Some (Some field) /\
      truthy (Some field) = true /\
      toString field = None) ->
  Common.parseStructured structured
  = Ret (Js.slice0 800 structured, Common.DEFAULT_CAPTION).
Proof.
  intros Hp H.
  unfold Common.parseStructured, Common.field_text, Common.read,
    Common.render, Common.or_value.
  rewrite Hp.
  destruct H as [-> | (key & field & [-> | ->] & Hget & Htr & Hs)].
  - reflexivity.
  - rewrite Hget. cbn [bind]. rewrite Htr, Hs. reflexivity.
  - rewrite Hget.
    destruct (get parsed "imagePrompt") as [a |]; [| reflexivity].
    cbn [bind].
    destruct (if truthy a then a else Some (JStr "")) as [j |].
    + destruct (toString j); cbn [bind try_catch];
        [rewrite Htr, Hs |]; reflexivity.
    + cbn [bind]. rewrite Htr, Hs. reflexivity.
Qed.

(** X19.  [caption.slice(0, 500)] in the entry point that uploads to
    the head branch never cuts: the caption that [main] has at that point
    has at most 200 characters, so the comment quotes it whole. *)
Theorem caption_cut_never_cuts structured imagePrompt caption imageUrl :
  Common.parseStructured structured = Ret (imagePrompt, caption) ->
  Js.slice0 500 caption = caption /\
  Upload.composeBody caption imageUrl
  = Js.join LF
      [Common.MARKER; LF; quote caption;
       if Js.truthy imageUrl
       then LF ++ "![Funny PR Image](" ++ Js.show imageUrl ++ ")" ++ LF
       else LF ++ Upload.UNAVAILABLE ++ LF;
       Common.ATTRIBUTION].
Proof.
  intros H. apply parseStructured_bounds in H. destruct H as [_ H].
  assert (Hc : Js.slice0 500 caption = caption) by (apply slice0_all; lia).
  split; [exact Hc |].
  unfold Upload.composeBody, quote. rewrite Hc. reflexivity.
Qed.

Lemma length_quote caption :
  String.length (quote caption) <= String.length caption + 3.
Proof.
  unfold quote. destruct (Js.truthy (Some caption)); cbn [String.length].
  - rewrite !length_append. cbn. lia.
  - lia.
Qed.

(** X20.  The comment of the entry point that uploads to the head
    branch has at most 630 characters besides the image URL. *)
Theorem upload_comment_is_short caption imageUrl :
  String.length (Upload.composeBody caption imageUrl)
  <= 630 + String.length (Js.show imageUrl).
Proof.
  unfold Upload.composeBody, Js.join.
  change (if Js.truthy (Some (Js.slice0 500 caption))
          then "> " ++ Js.slice0 500 caption ++ LF else "")
    with (quote (Js.slice0 500 caption)).
  pose proof (length_quote (Js.slice0 500 caption)) as Hq.
  pose proof (slice0_bound 500 caption) as Hs.
  cbn [String.concat]. rewrite !length_append.
  destruct (Js.truthy imageUrl); rewrite ?length_append;
    cbn [String.length LF Common.MARKER Common.ATTRIBUTION Upload.UNAVAILABLE];
    lia.
Qed.

(** X21.  The comment of [src/index.ts] has 117 characters besides the
    caption line and the image URL, which it embeds whole, however long:
    for a [data:] URL, the whole base64 payload. *)
Theorem index_comment_grows_with_its_picture caption imageUrl :
  String.length (Index.composeBody caption imageUrl)
  = 117 + String.length (quote caption) + String.length imageUrl.
Proof.
  unfold Index.composeBody, Js.join.
  change (if Js.truthy (Some caption) then "> " ++ caption ++ LF else "")
    with (quote caption).
  cbn [String.concat]. rewrite !length_append.
  cbn [String.length LF Common.MARKER Common.ATTRIBUTION]. lia.
Qed.

(** X22.  The summary of a pull request reads its title, author, base
    and head branch, the first 2000 characters of its body and the first
    30 changed files: two pull requests that agree on these have the same
    summary. *)
Theorem summary_reads_a_bounded_part pr pr' files files' :
  title pr = title pr' ->
  user_login pr = user_login pr' ->
  base_ref pr = base_ref pr' ->
  head_ref pr = head_ref pr' ->
  Js.truthy (body pr) = Js.truthy (body pr') ->
  Js.slice0 2000 (Js.show (body pr)) = Js.slice0 2000 (Js.show (body pr')) ->
  firstn 30 files = firstn 30 files' ->
  Common.prSummary pr files = Common.prSummary pr' files'.
Proof.
  intros Ht Hu Hb Hh Htr Hs Hf.
  unfold Common.prSummary, Common.changedFiles, Common.definite.
  rewrite !firstn_map, Hf, Ht, Hu, Hb, Hh, <- Htr.
  destruct (Js.truthy (body pr)) eqn:E; [| reflexivity].
  symmetry in Htr.
  rewrite (truthy_show _ E), (truthy_show _ Htr) in *.
  cbn [Js.show] in Hs. rewrite Hs. reflexivity.
Qed.

End Texts.

(* ================================================================== *)
(** * The upload to the images branch *)
(* ================================================================== *)

Section ImagesBranch.
Context {JN : JsNumber} {JP : JsonParser}.

(** X23.  Every write of [uploadImageToImagesBranch] comes after the
    read of the same path on the images branch, and carries the commit
    message and the content of the parameters, the images branch (the
    parameter, else [PATCH_PICASSO_IMAGE_BRANCH], else
    [patch-picasso-images]) and as [sha] that of the file that the read
    found, or none when the read failed. *)
Theorem images_branch_write env params (W : World) (s : state W) r :
  In r (calls
          (events_of
             (run W (ImageStorage.uploadImageToImagesBranch env params) s))) ->
  is_put r = true ->
  let branch :=
    Js.show
      (Js.or_else
         (Js.or_else (ImageStorage.branchName params)
            (env "PATCH_PICASSO_IMAGE_BRANCH"))
         (Some "patch-picasso-images")) in
  exists x,
    In (Ev (HttpGet SContent
              (ImageStorage.contents_url
                 (ImageStorage.owner params) (ImageStorage.repo params)
                 (ImageStorage.pathInRepo params)
               ++ "?ref=" ++ Js.encodeURIComponent branch)
              (ImageStorage.token params)) x)
      (events_of
         (run W (ImageStorage.uploadImageToImagesBranch env params) s)) /\
    r = HttpPut SWritten
          (ImageStorage.contents_url
             (ImageStorage.owner params) (ImageStorage.repo params)
             (ImageStorage.pathInRepo params))
          (ImageStorage.token params)
          (BContents (ImageStorage.commitMessage params)
             (ImageStorage.contentBase64 params) branch (known_sha x)).
Proof.
  unfold ImageStorage.uploadImageToImagesBranch,
    ImageStorage.ensureImagesBranch, ImageStorage.getJson,
    ImageStorage.postJson, ImageStorage.putJson.
  repeat exec_step.
  all: intros Hin Hput.
  all: cbn [calls map request In] in Hin.
  all: repeat (destruct Hin as [Hin | Hin]).
  all: try contradiction.
  all: subst r; cbn [is_put] in Hput; try discriminate.
  all: match goal with
       | |- context [Ev (HttpGet SContent ?u ?t) ?x] =>
           exists x; split; [in_list | reflexivity]
       end.
Qed.

(** X24.  [uploadImageToImagesBranch] logs nothing, does not read the
    clock and never ends the process.  When it returns, its last call is a
    write that was answered OK; when it throws, its last call is one that
    failed. *)
Theorem images_branch_upload_ends env params (W : World) (s : state W) :
  existsb (fun r => is_console r || is_clock r)
    (calls
       (events_of
          (run W (ImageStorage.uploadImageToImagesBranch env params) s)))
  = false /\
  match
    outcome_of (run W (ImageStorage.uploadImageToImagesBranch env params) s)
  with
  | Returned _ =>
      exists r w,
        last_call
          (events_of
             (run W (ImageStorage.uploadImageToImagesBranch env params) s))
        = Some r /\
        is_put r = true /\
        In (Ev r w)
          (events_of
             (run W (ImageStorage.uploadImageToImagesBranch env params) s)) /\
        failed (Ev r w) = false
  | Threw _ =>
      exists e,
        In e
          (events_of
             (run W (ImageStorage.uploadImageToImagesBranch env params) s)) /\
        failed e = true /\
        last_call
          (events_of
             (run W (ImageStorage.uploadImageToImagesBranch env params) s))
        = Some (request e)
  | Exited _ => False
  end.
Proof.
  unfold ImageStorage.uploadImageToImagesBranch,
    ImageStorage.ensureImagesBranch, ImageStorage.getJson,
    ImageStorage.postJson, ImageStorage.putJson.
  repeat exec_step.
  all: split; [reflexivity |].
  all: cbn beta iota.
  all: first
    [ match goal with
      | |- exists r w, _ =>
          match goal with
          | |- context [Ev (HttpPut ?sh ?u ?t ?b) ?w] =>
              exists (HttpPut sh u t b), w;
              split; [reflexivity |]; split; [reflexivity |];
              split; [in_list | reflexivity]
          end
      end
    | match goal with
      | |- exists e, _ =>
          eexists; split; [cbn [In]; eauto 12 |]; split; reflexivity
      end ].
Qed.

End ImagesBranch.

(* ================================================================== *)
(** * More concrete runs *)
(* ================================================================== *)

Section MoreExamples.
#[local] Existing Instance Sample.decimal.
#[local] Existing Instance Sample.parser.

Ltac happened := vm_compute; repeat first [left; reflexivity | right].

(** The key of OpenAI is missing. *)
Lemma missing_secret_exits_at_once_witness :
  Js.truthy (Cases.token_only "OPENAI_API_KEY") = false /\
  calls
    (events_of
       (Sample.first_run Sample.json_and_nothing
          (Index.program Cases.token_only Sample.args)))
  = [Console Error
       [Text "[patch-picasso] Missing required env: OPENAI_API_KEY"]] /\
  outcome_of
    (Sample.first_run Sample.json_and_nothing
       (Index.program Cases.token_only Sample.args))
  = Exited 1%Z.
Proof.
  split; [reflexivity |].
  apply (missing_secret_exits_at_once Cases.token_only Sample.args
           (Index.program Cases.token_only Sample.args)
           (Sample.github Sample.json_and_nothing) [] "OPENAI_API_KEY").
  - left; reflexivity.
  - right. repeat split; reflexivity.
Defined.

(** Both secrets, and no repository on the command line or in the
    environment. *)
Lemma missing_repository_exits_before_any_request_witness :
  Js.truthy (Cases.secrets_only "GITHUB_REPOSITORY") = false /\
  outcome_of
    (Sample.first_run Sample.json_and_nothing
       (Upload.program Cases.secrets_only Sample.args))
  = Exited 1%Z.
Proof.
  split; [reflexivity |].
  exact (proj1 (missing_repository_exits_before_any_request
                  Cases.secrets_only Sample.args
                  (Upload.program Cases.secrets_only Sample.args)
                  (Sample.github Sample.json_and_nothing) []
                  (or_intror (or_introl eq_refl))
                  eq_refl eq_refl eq_refl eq_refl)).
Defined.

(** No flag and no event. *)
Lemma missing_number_exits_before_any_request_witness :
  truthy (Common.or_value (arg_pr Cases.no_flags)
            (arg_pr_number Cases.no_flags)) = false /\
  Js.truthy (Sample.env "GITHUB_EVENT_PATH") = false /\
  outcome_of
    (Sample.first_run Sample.json_and_nothing
       (Index.program Sample.env Cases.no_flags))
  = Exited 1%Z.
Proof.
  split; [reflexivity |]. split; [reflexivity |].
  apply (missing_number_exits_before_any_request Sample.env Cases.no_flags
           (Index.program Sample.env Cases.no_flags)
           (Sample.github Sample.json_and_nothing) []
           "acme/widgets" {| owner := "acme"; name := "widgets" |}).
  - left; reflexivity.
  - reflexivity.
  - reflexivity.
  - reflexivity.
  - reflexivity.
  - reflexivity.
  - reflexivity.
Defined.

(** [--pr 7 --pr-number 9] on a [pull_request] event: the first flag
    counts. *)
Lemma flag_number_wins_witness :
  Common.or_value (arg_pr Cases.both_flags) (arg_pr_number Cases.both_flags)
  = Some Cases.SEVEN /\
  hd_error
    (pipeline
       (events_of
          (Sample.first_run (Cases.with_event Sample.json_and_nothing)
             (Index.program Cases.on_event Cases.both_flags))))
  = Some Cases.get_pull.
Proof.
  split; [reflexivity |].
  apply (flag_number_wins Cases.on_event Cases.both_flags
           (Index.program Cases.on_event Cases.both_flags)
           (Sample.github (Cases.with_event Sample.json_and_nothing)) []
           "acme/widgets" {| owner := "acme"; name := "widgets" |}
           Cases.SEVEN "7").
  - left; reflexivity.
  - reflexivity.
  - reflexivity.
  - reflexivity.
  - reflexivity.
  - reflexivity.
  - reflexivity.
  - reflexivity.
Defined.

(** No flag, on a [pull_request] event. *)
Lemma event_number_is_the_fallback_witness :
  truthy (Common.or_value (arg_pr Cases.no_flags)
            (arg_pr_number Cases.no_flags)) = false /\
  JSON_parse Sample.EVENT
  = Some Cases.EVENT_PAYLOAD /\
  hd_error
    (pipeline
       (events_of
          (Sample.first_run (Cases.with_event Sample.json_and_nothing)
             (Upload.program Cases.on_event Cases.no_flags))))
  = Some Cases.get_pull.
Proof.
  split; [reflexivity |]. split; [reflexivity |].
  apply (event_number_is_the_fallback Cases.on_event Cases.no_flags
           (Upload.program Cases.on_event Cases.no_flags)
           (Sample.github (Cases.with_event Sample.json_and_nothing)) []
           "acme/widgets" {| owner := "acme"; name := "widgets" |}
           Cases.EVENT_PATH Sample.EVENT
           Cases.EVENT_PAYLOAD
           Cases.EVENT_PULL Cases.SEVEN "7").
  - right; left; reflexivity.
  - reflexivity.
  - reflexivity.
  - reflexivity.
  - reflexivity.
  - reflexivity.
  - reflexivity.
  - reflexivity.
  - reflexivity.
  - reflexivity.
  - reflexivity.
  - reflexivity.
  - reflexivity.
Defined.

(** The read of the pull request in a run of the sibling entry point. *)
Lemma every_call_is_addressed_witness :
  In Cases.get_pull
    (calls
       (events_of
          (Sample.first_run (Sample.json_and_payload Sample.no_download)
             (Upload.program Sample.env Sample.args)))) /\
  addressed Sample.env Sample.args Cases.get_pull.
Proof.
  assert (H : In Cases.get_pull
    (calls
       (events_of
          (Sample.first_run (Sample.json_and_payload Sample.no_download)
             (Upload.program Sample.env Sample.args))))).
  { happened. }
  split; [exact H |].
  apply (every_call_is_addressed Sample.env Sample.args
           (Upload.program Sample.env Sample.args)
           (Sample.github (Sample.json_and_payload Sample.no_download)) []
           Cases.get_pull).
  - right; left; reflexivity.
  - exact H.
Defined.

(** A run that goes through every stage. *)
Lemma calls_follow_the_text_of_main_witness :
  staged
    (events_of
       (Sample.first_run (Sample.json_and_payload Sample.no_download)
          (Upload.program Sample.env Sample.args)))
  = [1; 2; 3; 4; 5; 6; 7; 8] /\
  StronglySorted lt
    (staged
       (events_of
          (Sample.first_run (Sample.json_and_payload Sample.no_download)
             (Upload.program Sample.env Sample.args)))).
Proof.
  split; [reflexivity |].
  apply (calls_follow_the_text_of_main Sample.env Sample.args
           (Upload.program Sample.env Sample.args)
           (Sample.github (Sample.json_and_payload Sample.no_download)) []).
  right; left; reflexivity.
Defined.

Lemma every_end_is_announced_witness :
  (outcome_of
     (Sample.first_run (Cases.without_pull Sample.json_and_nothing)
        (Index.program Sample.env Sample.args)) = Returned tt /\
   exists text,
     last_call
       (events_of
          (Sample.first_run (Cases.without_pull Sample.json_and_nothing)
             (Index.program Sample.env Sample.args)))
     = Some (Console Log [Text text])) \/
  (outcome_of
     (Sample.first_run (Cases.without_pull Sample.json_and_nothing)
        (Index.program Sample.env Sample.args)) = Exited 1%Z /\
   exists text rest,
     last_call
       (events_of
          (Sample.first_run (Cases.without_pull Sample.json_and_nothing)
             (Index.program Sample.env Sample.args)))
     = Some (Console Error (Text text :: rest))).
Proof.
  apply (every_end_is_announced Sample.env Sample.args
           (Index.program Sample.env Sample.args)
           (Sample.github (Cases.without_pull Sample.json_and_nothing)) []).
  left; reflexivity.
Defined.

Lemma one_comment_at_most_witness :
  length
    (posted
       (events_of
          (Sample.first_run (Sample.json_and_payload Sample.no_download)
             (Upload.program Sample.env Sample.args)))) <= 1.
Proof.
  exact (proj1 (one_comment_at_most Sample.env Sample.args
                  (Upload.program Sample.env Sample.args)
                  (Sample.github (Sample.json_and_payload Sample.no_download))
                  [] (or_intror (or_introl eq_refl)))).
Defined.

(** GitHub does not find the pull request. *)
Lemma failed_request_is_fatal_witness :
  In (Ev Cases.get_pull Cases.NOT_FOUND)
    (events_of
       (Sample.first_run (Cases.without_pull Sample.json_and_nothing)
          (Index.program Sample.env Sample.args))) /\
  outcome_of
    (Sample.first_run (Cases.without_pull Sample.json_and_nothing)
       (Index.program Sample.env Sample.args))
  = Exited 1%Z /\
  last_call
    (events_of
       (Sample.first_run (Cases.without_pull Sample.json_and_nothing)
          (Index.program Sample.env Sample.args)))
  = Some (Console Error
            [Text "[patch-picasso] Failed:";
             Text "GitHub API https://api.github.com/repos/acme/widgets/pulls/7 failed: 404 Not Found - {}"]).
Proof.
  assert (H : In (Ev Cases.get_pull Cases.NOT_FOUND)
    (events_of
       (Sample.first_run (Cases.without_pull Sample.json_and_nothing)
          (Index.program Sample.env Sample.args)))).
  { happened. }
  split; [exact H |].
  apply (failed_request_is_fatal Sample.env Sample.args
           (Index.program Sample.env Sample.args)
           (Sample.github (Cases.without_pull Sample.json_and_nothing)) []
           (Ev Cases.get_pull Cases.NOT_FOUND)
           ("GitHub API " ++ Sample.API ++ "/pulls/7"
            ++ " failed: 404 Not Found - {}")).
  - left; reflexivity.
  - exact H.
  - reflexivity.
  - reflexivity.
  - reflexivity.
Defined.

(** GitHub refuses the write of the picture. *)
Lemma failed_upload_is_not_fatal_witness :
  In (Ev Cases.put_picture Cases.refused)
    (events_of
       (Sample.first_run (Sample.json_and_payload Cases.refused)
          (Upload.program Sample.env Sample.args))) /\
  exists caption,
    posted
      (events_of
         (Sample.first_run (Sample.json_and_payload Cases.refused)
            (Upload.program Sample.env Sample.args)))
    = [Upload.composeBody caption None].
Proof.
  assert (H : In (Ev Cases.put_picture Cases.refused)
    (events_of
       (Sample.first_run (Sample.json_and_payload Cases.refused)
          (Upload.program Sample.env Sample.args)))).
  { happened. }
  split; [exact H |].
  destruct (failed_upload_is_not_fatal Sample.env Sample.args
              (Sample.github (Sample.json_and_payload Cases.refused)) []
              (Ev Cases.put_picture Cases.refused)
              ("GitHub API PUT " ++ Sample.API
               ++ "/contents/.github%2Fpatch-picasso%2F7-1700000000000.png"
               ++ " failed: 409 Conflict - {}")
              H eq_refl eq_refl)
    as [_ Hposted].
  exact Hposted.
Defined.

(** The image service answers with a hosted URL. *)
Lemma hosted_url_is_used_as_it_is_witness :
  Js.truthy
    (Common.first_url (Sample.one_image (Some Sample.CDN) None)) = true /\
  existsb is_put
    (calls
       (events_of
          (Sample.first_run Cases.json_and_hosted
             (Upload.program Sample.env Sample.args)))) = false.
Proof.
  split; [reflexivity |].
  apply (hosted_url_is_used_as_it_is Sample.env Sample.args
           (Upload.program Sample.env Sample.args)
           (Sample.github Cases.json_and_hosted) []
           (Sample.image_answer "a cat coding"
              (Sample.one_image (Some Sample.CDN) None))
           (Sample.one_image (Some Sample.CDN) None)).
  - right; left; reflexivity.
  - happened.
  - reflexivity.
  - reflexivity.
Defined.

(** The write of a run that uploads. *)
Lemma upload_writes_the_payload_to_the_head_branch_witness :
  In Cases.put_picture
    (calls
       (events_of
          (Sample.first_run (Sample.json_and_payload Sample.no_download)
             (Upload.program Sample.env Sample.args)))) /\
  exists ctx pr image now,
    Upload.eligible pr (Common.first_b64 image) = true /\
    Cases.put_picture
    = HttpPut SWritten
        (Common.apiBase ctx ++ "/contents/"
         ++ Js.encodeURIComponent
              (".github/patch-picasso/" ++ Common.prNumber ctx ++ "-"
               ++ number_toString now ++ ".png"))
        (Common.githubToken ctx)
        (BContents
           ("patch-picasso: add generated image for PR #"
            ++ Common.prNumber ctx)
           (Js.show (Common.first_b64 image))
           (Js.show (head_ref pr))
           None).
Proof.
  assert (H : In Cases.put_picture
    (calls
       (events_of
          (Sample.first_run (Sample.json_and_payload Sample.no_download)
             (Upload.program Sample.env Sample.args))))).
  { happened. }
  split; [exact H |].
  destruct (upload_writes_the_payload_to_the_head_branch Sample.env
              Sample.args
              (Sample.github (Sample.json_and_payload Sample.no_download)) []
              Cases.put_picture H eq_refl)
    as (ctx & pr & image & now & Hctx & _ & _ & _ & _ & Hel & Hr).
  exists ctx, pr, image, now. split; [exact Hel | exact Hr].
Defined.


(** Thirty files and thirty-one files give the same summary. *)
Lemma summary_reads_a_bounded_part_witness :
  firstn 30 (Cases.many_files 30) = firstn 30 (Cases.many_files 31) /\
  Common.prSummary Sample.same_repo_pull (Cases.many_files 30)
  = Common.prSummary Sample.same_repo_pull (Cases.many_files 31).
Proof.
  split; [reflexivity |].
  apply (summary_reads_a_bounded_part Sample.same_repo_pull
           Sample.same_repo_pull (Cases.many_files 30) (Cases.many_files 31)).
  all: reflexivity.
Defined.

(** An object without the two keys. *)
Lemma falsy_fields_give_empty_texts_witness :
  JSON_parse Sample.EVENT
  = Some Cases.EVENT_PAYLOAD /\
  Common.parseStructured Sample.EVENT = Ret ("", "").
Proof.
  split; [reflexivity |].
  apply (falsy_fields_give_empty_texts Sample.EVENT
           Cases.EVENT_PAYLOAD
           None None).
  all: reflexivity.
Defined.

(** The text [null]. *)
Lemma unreadable_text_falls_back_witness :
  JSON_parse "null" = Some JNull /\
  Common.parseStructured "null" = Ret ("null", Common.DEFAULT_CAPTION).
Proof.
  split; [reflexivity |].
  apply (unreadable_text_falls_back "null" JNull).
  - reflexivity.
  - left; reflexivity.
Defined.

Lemma caption_cut_never_cuts_witness :
  Common.parseStructured Sample.WELL_FORMED
  = Ret ("a cat coding", "meow-ge requests") /\
  Js.slice0 500 "meow-ge requests" = "meow-ge requests".
Proof.
  assert (H : Common.parseStructured Sample.WELL_FORMED
              = Ret ("a cat coding", "meow-ge requests")) by reflexivity.
  split; [exact H |].
  exact (proj1 (caption_cut_never_cuts Sample.WELL_FORMED "a cat coding"
                  "meow-ge requests" None H)).
Defined.

(** The write into the images branch when the file is there already. *)
Lemma images_branch_write_witness :
  In (Cases.put_in_images_branch (Some "4b825dc"))
    (calls
       (events_of
          (run (Sample.github
                  (Cases.with_content
                     (Sample.json_and_payload Sample.no_download)))
             (ImageStorage.uploadImageToImagesBranch Sample.env Sample.params)
             []))) /\
  exists x,
    Cases.put_in_images_branch (Some "4b825dc")
    = Cases.put_in_images_branch (known_sha x).
Proof.
  assert (H : In (Cases.put_in_images_branch (Some "4b825dc"))
    (calls
       (events_of
          (run (Sample.github
                  (Cases.with_content
                     (Sample.json_and_payload Sample.no_download)))
             (ImageStorage.uploadImageToImagesBranch Sample.env Sample.params)
             [])))).
  { happened. }
  split; [exact H |].
  destruct (images_branch_write Sample.env Sample.params
              (Sample.github
                 (Cases.with_content
                    (Sample.json_and_payload Sample.no_download))) []
              (Cases.put_in_images_branch (Some "4b825dc")) H eq_refl)
    as (x & _ & Hr).
  exists x. exact Hr.
Defined.

End MoreExamples.
